(** * Teknav policy engine: RBAC + ABAC evaluation with caching and audit

    Shallow embedding of
    [Cloud-TN-3/backend/src/security/policy/policy.service.ts]
    (class [PolicyService]) and the properties of its decision procedure.

    Conventions of the embedding:
    - JavaScript strings are [string]; optional fields are [option];
      a test [if (x)] on an optional string is [truthy x] (present and
      not the empty string).
    - JS objects used as dictionaries ([policyDoc.roles], the Redis key
      space, the tenant table) are [gmap string _], holding their own
      entries; where the source indexes a plain object with a caller's
      string ([policyDoc.roles[role]]), the members it inherits are
      accounted for apart ([inherited_member]).
    - [async] methods that touch Redis, Prisma or the audit log are
      computations in the monad [M]: they thread the [World], may throw,
      and record every collaborator interaction in a trace.
    - [this.logger.*] calls write to the process log only; they are left
      out, no property below observes them. *)

From Stdlib Require Import ZArith String Ascii List Bool Lia.
From stdpp Require Import base option list gmap strings fin_maps.

Local Open Scope Z_scope.
Local Open Scope string_scope.
Local Open Scope list_scope.

(** ** Policy types (policy.types) *)

(** [PolicyEffect]: the two-valued enum ['allow' | 'deny']. *)
Inductive PolicyEffect := ALLOW | DENY.

(** [PolicySubject]: [{ type, id }], [type] being ['role'] or ['user']. *)
Record PolicySubject := {
  s_type : string;
  s_id : string }.

(** The first argument of [evaluate]: [PolicySubject | PolicyRole], a
    role being passed as its bare name. *)
Inductive SubjectArg :=
| RoleName (role : string)
| Subject (s : PolicySubject).

Record PolicyContext := {
  tenantId : string;
  workspaceId : option string;
  userId : option Z;
  requestId : string;
  ip : string;
  ua : string;
  deviceId : string;
  geo : option string }.

(** Time bounds are kept as the instants [new Date(bound)] denotes;
    [None] stands for a bound that is absent, empty, or not a date (the
    comparison against an invalid date is false, so such a bound never
    excludes a rule). *)
Record TimeWindow := {
  t_start : option Z;
  t_end : option Z }.

Record RuleConditions := {
  c_tenantId : option string;
  c_workspaceId : option string;
  c_userIds : option (list Z);
  c_time : option TimeWindow }.

Record PolicyRule := {
  r_id : string;
  r_effect : PolicyEffect;
  r_subject : PolicySubject;
  r_action : string;
  r_resource : string;
  r_conditions : option RuleConditions;
  r_priority : Z }.

Record Permission := {
  p_resource : string;
  p_actions : list string;
  p_effect : PolicyEffect;
  p_scope : string }.

Record RolePermissions := {
  permissions : list Permission }.

Record PolicyDocument := {
  version : Z;
  roles : gmap string RolePermissions;
  rules : list PolicyRule;
  denyByDefault : bool }.

(** Modelled from the spec: the constant [DEFAULT_POLICY] of policy.types,
    which is not part of the sources at hand. The specification gives it
    as: version 1, empty role map, empty rule list, [denyByDefault: true]. *)
Definition DEFAULT_POLICY : PolicyDocument :=
  {| version := 1; roles := ∅; rules := []; denyByDefault := true |}.

(** [PolicyResult]. [matchedRuleId] is [None] both for [null] and for an
    absent field. *)
Record PolicyResult := {
  allowed : bool;
  denied : bool;
  reason : string;
  matchedRuleId : option string }.

(** The three shapes a result can take. *)
Definition no_opinion (r : PolicyResult) : Prop :=
  allowed r = false ∧ denied r = false.

Definition terminal (r : PolicyResult) : Prop :=
  xorb (allowed r) (denied r) = true.

(** ** JavaScript helpers *)

(** [if (s)] on an optional string. *)
Definition truthy (s : option string) : bool :=
  match s with
  | Some v => negb (v =? "")
  | None => false
  end.

(** [a !== b] on optional strings. *)
Definition opt_string_neq (a b : option string) : bool :=
  match a, b with
  | Some x, Some y => negb (x =? y)
  | None, None => false
  | _, _ => true
  end.

(** [xs.includes(x)] for strings and for user ids. *)
Definition includes_str (xs : list string) (x : string) : bool :=
  existsb (String.eqb x) xs.

Definition includes_id (xs : list Z) (x : option Z) : bool :=
  match x with
  | Some u => existsb (Z.eqb u) xs
  | None => false
  end.

(** ** RBAC evaluator *)

(** The members every plain object inherits from [Object.prototype].  The
    role map is a plain object (parsed JSON, or an object literal), so
    [policyDoc.roles[role]] gives one of these, not [undefined], for a
    [role] that names one and that the map does not list itself. *)
Definition inherited_members : list string :=
  ["constructor"; "__defineGetter__"; "__defineSetter__"; "hasOwnProperty";
   "__lookupGetter__"; "__lookupSetter__"; "isPrototypeOf";
   "propertyIsEnumerable"; "toString"; "valueOf"; "__proto__"; "toLocaleString"].

Definition inherited_member (name : string) : bool :=
  includes_str inherited_members name.

(** Where [evaluateRBAC] throws instead of returning: for a role subject
    whose id the role map does not list and that names an inherited member,
    [rolePermissions] is that member, which is truthy and has no
    [permissions], and [rolePermissions.permissions.find] is a TypeError. *)
Definition evaluateRBAC_throws (subject : PolicySubject) (policyDoc : PolicyDocument)
    : bool :=
  (s_type subject =? "role") &&
  match roles policyDoc !! s_id subject with
  | Some _ => false
  | None => inherited_member (s_id subject)
  end.

(** [evaluateRBAC], where it returns: what the function returns on every
    input on which [evaluateRBAC_throws] is false.  The call in [evaluate]
    goes through [call_evaluateRBAC], which throws on the other inputs. *)
Definition evaluateRBAC (subject : PolicySubject) (action resource : string)
    (context : PolicyContext) (policyDoc : PolicyDocument) : PolicyResult :=
  if negb (s_type subject =? "role") then
    {| allowed := false; denied := false;
       reason := "Subject is not a role, skipping RBAC"; matchedRuleId := None |}
  else
    let role := s_id subject in
    match roles policyDoc !! role with
    | None =>
        {| allowed := false; denied := false;
           reason := "Role " +:+ role +:+ " not found in policy";
           matchedRuleId := None |}
    | Some rolePermissions =>
        match find (λ p, p_resource p =? resource) (permissions rolePermissions) with
        | None =>
            {| allowed := false; denied := false;
               reason := "No permission defined for resource " +:+ resource;
               matchedRuleId := None |}
        | Some permission =>
            if negb (includes_str (p_actions permission) action) then
              {| allowed := false; denied := false;
                 reason := "Action " +:+ action +:+
                           " not in allowed actions for resource " +:+ resource;
                 matchedRuleId := None |}
            else
              match p_effect permission with
              | DENY =>
                  {| allowed := false; denied := true;
                     reason := "Deny effect for role " +:+ role +:+ " on " +:+ resource;
                     matchedRuleId := None |}
              | ALLOW =>
                  if p_scope permission =? "own" then
                    if truthy (workspaceId context) then
                      {| allowed := true; denied := false;
                         reason := "Allow effect (scope: own/workspace)";
                         matchedRuleId := None |}
                    else
                      {| allowed := false; denied := true;
                         reason := "Scope mismatch (own scope requires workspace context)";
                         matchedRuleId := None |}
                  else if p_scope permission =? "workspace" then
                    if truthy (workspaceId context) then
                      {| allowed := true; denied := false;
                         reason := "Allow effect (scope: workspace)";
                         matchedRuleId := None |}
                    else
                      {| allowed := false; denied := true;
                         reason := "Scope mismatch (workspace scope requires workspaceId in context)";
                         matchedRuleId := None |}
                  else if p_scope permission =? "all" then
                    {| allowed := true; denied := false;
                       reason := "Allow effect (scope: all)";
                       matchedRuleId := None |}
                  else
                    {| allowed := false; denied := false;
                       reason := "Unknown scope: " +:+ p_scope permission;
                       matchedRuleId := None |}
              end
        end
    end.

(** ** ABAC evaluator *)

(** The predicate handed to [policyDoc.rules.filter]; [now] is the
    instant [new Date()] reads. *)
Definition conditions_hold (now : Z) (context : PolicyContext)
    (c : RuleConditions) : bool :=
  if truthy (c_tenantId c) && opt_string_neq (c_tenantId c) (Some (tenantId context))
  then false
  else if truthy (c_workspaceId c) && opt_string_neq (c_workspaceId c) (workspaceId context)
  then false
  else if match c_userIds c with
          | Some ids => (0 <? Z.of_nat (length ids))%Z && negb (includes_id ids (userId context))
          | None => false
          end
  then false
  else match c_time c with
       | Some tw =>
           if match t_start tw with Some s => (now <? s)%Z | None => false end then false
           else if match t_end tw with Some e => (e <? now)%Z | None => false end then false
           else true
       | None => true
       end.

Definition rule_matches (now : Z) (subject : PolicySubject) (action resource : string)
    (context : PolicyContext) (rule : PolicyRule) : bool :=
  if negb (r_action rule =? action) then false
  else if negb (r_resource rule =? resource) then false
  else if negb (s_type (r_subject rule) =? s_type subject) then false
  else if negb (s_id (r_subject rule) =? s_id subject) then false
  else match r_conditions rule with
       | Some c => conditions_hold now context c
       | None => true
       end.

(** The comparator passed to [matchingRules.sort]. *)
Definition compareRules (a b : PolicyRule) : Z :=
  match r_effect a, r_effect b with
  | DENY, ALLOW => -1
  | ALLOW, DENY => 1
  | _, _ => 0
  end.

(** [Array.prototype.sort] is a stable sort: an element moves in front of
    another only when the comparator says it is strictly smaller.  It is
    modelled by stable insertion. *)
Section StableSort.
Context {A : Type} (cmp : A → A → Z).

Fixpoint insert_sorted (x : A) (l : list A) : list A :=
  match l with
  | [] => [x]
  | y :: l' => if (cmp x y <=? 0)%Z then x :: y :: l' else y :: insert_sorted x l'
  end.

Definition sort : list A → list A := foldr insert_sorted [].
End StableSort.

(** [evaluateABAC]: filter, sort, then the loop over the sorted rules, which
    returns at its first rule, a rule's effect being one of the two. *)
Definition evaluateABAC (now : Z) (subject : PolicySubject) (action resource : string)
    (context : PolicyContext) (policyDoc : PolicyDocument) : PolicyResult :=
  let matchingRules :=
    List.filter (rule_matches now subject action resource context)
                (rules policyDoc) in
  let matchingRules := sort compareRules matchingRules in
  match matchingRules with
  | rule :: _ =>
      match r_effect rule with
      | DENY =>
          {| allowed := false; denied := true;
             reason := "Denied by rule " +:+ r_id rule;
             matchedRuleId := Some (r_id rule) |}
      | ALLOW =>
          {| allowed := true; denied := false;
             reason := "Allowed by rule " +:+ r_id rule;
             matchedRuleId := Some (r_id rule) |}
      end
  | [] =>
      {| allowed := false; denied := false;
         reason := "No ABAC rules matched"; matchedRuleId := None |}
  end.

(** ** The collaborators: Redis, the tenant table, the audit log *)

(** What a Redis key of this service holds: the JSON text of a policy
    document or of an evaluation result.  [JSON.parse (JSON.stringify v)]
    gives [v] back for both kinds of value, so the text is represented by
    the value it encodes. *)
Inductive CacheValue :=
| DocEntry (d : PolicyDocument)
| EvalEntry (r : PolicyResult).

(** [JSON.parse(cached) as PolicyResult].  The cast is unchecked: the
    text of a document read as a result has none of the four fields, its
    flags are [undefined], which is falsy. *)
Definition as_PolicyResult (v : CacheValue) : PolicyResult :=
  match v with
  | EvalEntry r => r
  | DocEntry _ =>
      {| allowed := false; denied := false; reason := ""; matchedRuleId := None |}
  end.

(** [Tenant.configuration]: the [policyEngine] section and the other
    sections, which the service copies but never reads. *)
Record Configuration := {
  policyEngine : option PolicyDocument;
  otherSections : gmap string string }.

Record Tenant := {
  configuration : option Configuration }.

(** The argument of [auditLog.logAction]. *)
Inductive JsNumber := NaN | Num (z : Z).

Inductive AuditPayload :=
| UpdatePayload (tenant : string) (policyVersion : Z)
| DenyPayload (subject : PolicySubject) (action resource : string)
    (context : PolicyContext) (reason : string) (matchedRuleId : option string).

Record AuditRecord := {
  actorId : option Z;
  actorUserId : option JsNumber;
  a_action : string;
  a_resource : string;
  payload : AuditPayload }.

Definition is_deny_audit (r : AuditRecord) : bool := a_action r =? "policy.deny".

Record World := {
  redis : gmap string CacheValue;
  tenants : gmap string Tenant;
  auditTrail : list AuditRecord;
  clock : Z }.

Definition with_redis (f : gmap string CacheValue → gmap string CacheValue)
    (w : World) : World :=
  {| redis := f (redis w); tenants := tenants w;
     auditTrail := auditTrail w; clock := clock w |}.

Definition with_tenants (f : gmap string Tenant → gmap string Tenant)
    (w : World) : World :=
  {| redis := redis w; tenants := f (tenants w);
     auditTrail := auditTrail w; clock := clock w |}.

Definition with_audit (r : AuditRecord) (w : World) : World :=
  {| redis := redis w; tenants := tenants w;
     auditTrail := auditTrail w ++ [r]; clock := clock w |}.

(** The calls the service makes on its collaborators. *)
Inductive Op := RedisGet | RedisSet | RedisDel | DbFind | DbUpdate | AuditLog.

Inductive exn :=
| Error (message : string)
| IOFailure (op : Op).

(** The error [updatePolicyDocument] throws for an unknown tenant. *)
Definition TenantNotFound : exn := Error "Tenant not found".

(** What a call did, in order. [EvRBAC] and [EvABAC] record that the
    evaluator was run and what it returned. *)
Inductive Event :=
| EvRedisGet (key : string)
| EvRedisSet (key : string) (v : CacheValue) (ttl : Z)
| EvRedisDel (key : string)
| EvDbFind (tenant : string)
| EvDbUpdate (tenant : string) (c : Configuration)
| EvAudit (r : AuditRecord)
| EvRBAC (r : PolicyResult)
| EvABAC (r : PolicyResult).

Inductive Outcome (A : Type) :=
| Ok (a : A)
| Throw (e : exn).
Arguments Ok {A} a.
Arguments Throw {A} e.

(** A computation: from a world to an outcome, the world it leaves and
    the trace of what it did. *)
Definition M (A : Type) : Type := World → Outcome A * World * list Event.

Definition ret {A} (a : A) : M A := λ w, (Ok a, w, []).

Definition throw {A} (e : exn) : M A := λ w, (Throw e, w, []).

Definition bind {A B} (m : M A) (k : A → M B) : M B :=
  λ w, match m w with
       | (Ok a, w1, t1) =>
           match k a w1 with
           | (o, w2, t2) => (o, w2, t1 ++ t2)
           end
       | (Throw e, w1, t1) => (Throw e, w1, t1)
       end.

Notation "'let*' x ':=' m 'in' k" := (bind m (λ x, k))
  (at level 10, x name, m at level 100, k at level 200).

Definition emit (e : Event) : M unit := λ w, (Ok tt, w, [e]).

(** [parseInt(s)], radix left out, where it is exact: the blanks skipped
    are the ASCII ones (JavaScript skips every white-space character) and
    the value is the integer itself (JavaScript rounds it to a double beyond
    2^53).  It fills [actorUserId] of the deny record and nothing else.
    Leading blanks, an optional sign, then
    the longest run of digits (hexadecimal after [0x]); [NaN] when there is
    no digit. *)
Definition digit_value (a : ascii) : option Z :=
  let n := Z.of_nat (nat_of_ascii a) in
  if (48 <=? n)%Z && (n <=? 57)%Z then Some (n - 48)%Z
  else if (97 <=? n)%Z && (n <=? 102)%Z then Some (n - 87)%Z
  else if (65 <=? n)%Z && (n <=? 70)%Z then Some (n - 55)%Z
  else None.

Fixpoint parse_digits (radix : Z) (s : string) (acc : option Z) : option Z :=
  match s with
  | EmptyString => acc
  | String a s' =>
      match digit_value a with
      | Some d =>
          if (d <? radix)%Z
          then parse_digits radix s' (Some (radix * default 0%Z acc + d)%Z)
          else acc
      | None => acc
      end
  end.

Fixpoint skip_blanks (s : string) : string :=
  match s with
  | String a s' =>
      let n := nat_of_ascii a in
      if (Nat.eqb n 32 || Nat.eqb n 9 || Nat.eqb n 10 || Nat.eqb n 11 ||
          Nat.eqb n 12 || Nat.eqb n 13)%bool
      then skip_blanks s' else s
  | EmptyString => s
  end.

Definition parse_unsigned (s : string) : option Z :=
  match s with
  | String "0" (String "x" s') | String "0" (String "X" s') => parse_digits 16 s' None
  | _ => parse_digits 10 s None
  end.

Definition parseInt (s : string) : JsNumber :=
  let s := skip_blanks s in
  let '(negative, s) :=
    match s with
    | String "-" s' => (true, s')
    | String "+" s' => (false, s')
    | _ => (false, s)
    end in
  match parse_unsigned s with
  | Some n => Num (if negative then - n else n)%Z
  | None => NaN
  end.

(** ** The service *)

Definition CACHE_TTL : Z := 300.
Definition POLICY_CACHE_PREFIX : string := "policy:doc:".
Definition EVAL_CACHE_PREFIX : string := "policy:eval:".

Section PolicyService.

(** Which collaborator calls fail during the call at hand: [fault op on]
    says that the call [op] on the key, tenant or audit action [on] fails.
    The service awaits every collaborator call outside any [try]: a call
    that rejects is a [throw] at that [await]. *)
Variable fault : Op → string → bool.

Definition io {A} (op : Op) (on : string) (m : M A) : M A :=
  if fault op on then throw (IOFailure op) else m.

(** Modelled from the spec: [RedisService.get] (redis.service is not part
    of the sources), the [get] of the spec's generic get/set-with-TTL/delete
    key-value contract; any cache I/O error is its failure.
    [this.redis.get(key)] gives the stored text, or [null]; a stored JSON
    text is never empty, so [if (cached)] is the test for presence. *)
Definition redis_get (key : string) : M (option CacheValue) :=
  io RedisGet key (λ w, (Ok (redis w !! key), w, [EvRedisGet key])).

(** Modelled from the spec: [RedisService.set], the set-with-TTL of the
    same contract.  The entry lives until it expires ([step_expire] below)
    or is deleted. *)
Definition redis_set (key : string) (v : CacheValue) (ttl : Z) : M unit :=
  io RedisSet key (λ w, (Ok tt, with_redis <[key := v]> w, [EvRedisSet key v ttl])).

(** Modelled from the spec: [RedisService.del], the delete of the same
    contract. *)
Definition redis_del (key : string) : M unit :=
  io RedisDel key (λ w, (Ok tt, with_redis (delete key) w, [EvRedisDel key])).

(** Modelled from the spec: the Policy Document Store read,
    [this.prisma.tenant.findUnique({ where: { id }, select: { configuration } })]:
    the tenant's row, or [null]. *)
Definition tenant_findUnique (id : string) : M (option Tenant) :=
  io DbFind id (λ w, (Ok (tenants w !! id), w, [EvDbFind id])).

(** Modelled from the spec: the Policy Document Store write,
    [this.prisma.tenant.update({ where: { id }, data: { configuration } })];
    an update of a row that does not exist is rejected. *)
Definition tenant_update (id : string) (c : Configuration) : M unit :=
  io DbUpdate id (λ w,
    match tenants w !! id with
    | Some _ =>
        (Ok tt, with_tenants <[id := {| configuration := Some c |}]> w,
         [EvDbUpdate id c])
    | None => (Throw (Error "Record to update not found"), w, [])
    end).

(** Modelled from the spec: the Audit Sink, [this.auditLog.logAction(record)],
    an append-only log. *)
Definition logAction (r : AuditRecord) : M unit :=
  io AuditLog (a_action r) (λ w, (Ok tt, with_audit r w, [EvAudit r])).

(** [new Date()].  The filter callback reads the clock once per rule; the
    reads of one call are taken to give one instant. *)
Definition now : M Z := λ w, (Ok (clock w), w, []).

(** *** Policy loading and caching *)

(** [getPolicyDocument].  The cast [JSON.parse(cached) as PolicyDocument] is
    unchecked: a decision found under a document key would be returned as
    it is, and throw a TypeError in the caller at the first use of its
    [roles] or [rules]; here the TypeError is thrown at the cast.  No run of
    the service from an empty cache puts a decision under a document key
    ([cache_ok]). *)
Definition getPolicyDocument (tenant : string) : M PolicyDocument :=
  let cacheKey := POLICY_CACHE_PREFIX +:+ tenant in
  let* cached := redis_get cacheKey in
  match cached with
  | Some (DocEntry d) => ret d
  | Some (EvalEntry _) => throw (Error "TypeError")
  | None =>
      let* tenantRow := tenant_findUnique tenant in
      match tenantRow with
      | None => ret DEFAULT_POLICY
      | Some row =>
          match configuration row with
          | None => ret DEFAULT_POLICY
          | Some policyEngineConfig =>
              let policyDoc := default DEFAULT_POLICY (policyEngine policyEngineConfig) in
              if negb (version policyDoc =? 1)%Z then ret DEFAULT_POLICY
              else
                let* _ := redis_set cacheKey (DocEntry policyDoc) CACHE_TTL in
                ret policyDoc
          end
      end
  end.

Definition invalidatePolicyCache (tenant : string) : M unit :=
  let cacheKey := POLICY_CACHE_PREFIX +:+ tenant in
  redis_del cacheKey.

Definition updatePolicyDocument (tenant : string) (policy : PolicyDocument)
    (actor : Z) : M unit :=
  let* tenantRow := tenant_findUnique tenant in
  match tenantRow with
  | None => throw TenantNotFound
  | Some row =>
      let newConfiguration :=
        {| policyEngine := Some policy;
           otherSections :=
             match configuration row with
             | Some c => otherSections c
             | None => ∅
             end |} in
      let* _ := tenant_update tenant newConfiguration in
      let* _ := invalidatePolicyCache tenant in
      logAction {| actorId := Some actor; actorUserId := None;
                   a_action := "owner.policy.update"; a_resource := "Policy";
                   payload := UpdatePayload tenant (version policy) |}
  end.

(** *** Helpers *)

Definition getEvalCacheKey (subject : PolicySubject) (action resource : string)
    (context : PolicyContext) : string :=
  let subjectStr := s_type subject +:+ ":" +:+ s_id subject in
  let scopeStr :=
    if truthy (workspaceId context) then default "" (workspaceId context)
    else "global" in
  EVAL_CACHE_PREFIX +:+ tenantId context +:+ ":" +:+ subjectStr +:+ ":" +:+
  action +:+ ":" +:+ resource +:+ ":" +:+ scopeStr.

Definition cacheEvalResult (key : string) (result : PolicyResult) : M unit :=
  redis_set key (EvalEntry result) 60.

Definition logPolicyDeny (subject : PolicySubject) (action resource : string)
    (context : PolicyContext) (reason : string) (matchedRuleId : option string)
    : M unit :=
  logAction
    {| actorId := None;
       actorUserId :=
         if s_type subject =? "user" then Some (parseInt (s_id subject)) else None;
       a_action := "policy.deny";
       a_resource := "Policy:" +:+ s_id subject;
       payload := DenyPayload subject action resource context reason matchedRuleId |}.

(** *** Policy evaluation *)

(** The call [this.evaluateRBAC(...)]: the TypeError of the role lookup, or
    the result. *)
Definition call_evaluateRBAC (subject : PolicySubject) (action resource : string)
    (context : PolicyContext) (policyDoc : PolicyDocument) : M PolicyResult :=
  if evaluateRBAC_throws subject policyDoc then throw (Error "TypeError")
  else ret (evaluateRBAC subject action resource context policyDoc).

(** [typeof subject === 'string' ? { type: 'role', id: subject } : subject]. *)
Definition normalize (subject : SubjectArg) : PolicySubject :=
  match subject with
  | RoleName role => {| s_type := "role"; s_id := role |}
  | Subject s => s
  end.

(** [evaluate].  [emit (EvRBAC _)] and [emit (EvABAC _)] stand for no
    statement of the source: they put the call of the private evaluator,
    with what it returned, on the trace. *)
Definition evaluate (subject : SubjectArg) (action resource : string)
    (context : PolicyContext) : M PolicyResult :=
  let normalizedSubject := normalize subject in
  let evalCacheKey := getEvalCacheKey normalizedSubject action resource context in
  let* cachedResult := redis_get evalCacheKey in
  match cachedResult with
  | Some cached => ret (as_PolicyResult cached)
  | None =>
      let* policyDoc := getPolicyDocument (tenantId context) in
      let* rbacResult :=
        call_evaluateRBAC normalizedSubject action resource context policyDoc in
      let* _ := emit (EvRBAC rbacResult) in
      if denied rbacResult then
        let result := {| allowed := false; denied := true;
                         reason := reason rbacResult; matchedRuleId := None |} in
        let* _ := cacheEvalResult evalCacheKey result in
        let* _ := logPolicyDeny normalizedSubject action resource context
                  (reason result) None in
        ret result
      else if allowed rbacResult then
        let result := {| allowed := true; denied := false;
                         reason := reason rbacResult; matchedRuleId := None |} in
        let* _ := cacheEvalResult evalCacheKey result in
        ret result
      else
        let* today := now in
        let abacResult :=
          evaluateABAC today normalizedSubject action resource context policyDoc in
        let* _ := emit (EvABAC abacResult) in
        if denied abacResult then
          let result := {| allowed := false; denied := true;
                           reason := reason abacResult;
                           matchedRuleId := matchedRuleId abacResult |} in
          let* _ := cacheEvalResult evalCacheKey result in
          let* _ := logPolicyDeny normalizedSubject action resource context
                    (reason result) (matchedRuleId result) in
          ret result
        else if allowed abacResult then
          let result := {| allowed := true; denied := false;
                           reason := reason abacResult;
                           matchedRuleId := matchedRuleId abacResult |} in
          let* _ := cacheEvalResult evalCacheKey result in
          ret result
        else
          let result := {| allowed := false; denied := true;
                           reason := "Denied by default (no allow/deny rule matched)";
                           matchedRuleId := None |} in
          let* _ := cacheEvalResult evalCacheKey result in
          let* _ := logPolicyDeny normalizedSubject action resource context
                    (reason result) None in
          ret result
  end.

End PolicyService.

(** * Vocabulary of the properties *)

(** [context.workspaceId] is present: it is there and passes [if (...)]. *)
Definition workspace_present (context : PolicyContext) : Prop :=
  ∃ ws, workspaceId context = Some ws ∧ ws ≠ "".

Definition is_deny (rule : PolicyRule) : bool :=
  match r_effect rule with DENY => true | ALLOW => false end.

Definition is_allow (rule : PolicyRule) : bool :=
  match r_effect rule with ALLOW => true | DENY => false end.

(** The rules of the document that match the request, in document order. *)
Definition matching (now : Z) (subject : PolicySubject) (action resource : string)
    (context : PolicyContext) (policyDoc : PolicyDocument) : list PolicyRule :=
  List.filter (rule_matches now subject action resource context) (rules policyDoc).

(** The result the evaluator builds from the rule that wins. *)
Definition verdict_of (rule : PolicyRule) : PolicyResult :=
  match r_effect rule with
  | DENY => {| allowed := false; denied := true;
               reason := "Denied by rule " +:+ r_id rule;
               matchedRuleId := Some (r_id rule) |}
  | ALLOW => {| allowed := true; denied := false;
                reason := "Allowed by rule " +:+ r_id rule;
                matchedRuleId := Some (r_id rule) |}
  end.

(** The precedence the orchestrator applies to the two evaluators' results:
    RBAC deny, RBAC allow, ABAC deny, ABAC allow, deny by default. *)
Definition verdict (rbac abac : PolicyResult) : PolicyResult :=
  if denied rbac then
    {| allowed := false; denied := true; reason := reason rbac; matchedRuleId := None |}
  else if allowed rbac then
    {| allowed := true; denied := false; reason := reason rbac; matchedRuleId := None |}
  else if denied abac then
    {| allowed := false; denied := true; reason := reason abac;
       matchedRuleId := matchedRuleId abac |}
  else if allowed abac then
    {| allowed := true; denied := false; reason := reason abac;
       matchedRuleId := matchedRuleId abac |}
  else
    {| allowed := false; denied := true;
       reason := "Denied by default (no allow/deny rule matched)";
       matchedRuleId := None |}.

(** The evaluators a cache miss consults, in order. *)
Definition consulted (rbac abac : PolicyResult) : list Event :=
  if denied rbac || allowed rbac then [EvRBAC rbac] else [EvRBAC rbac; EvABAC abac].

(** The record [logPolicyDeny] writes for a result. *)
Definition deny_record (subject : PolicySubject) (action resource : string)
    (context : PolicyContext) (result : PolicyResult) : AuditRecord :=
  {| actorId := None;
     actorUserId :=
       if s_type subject =? "user" then Some (parseInt (s_id subject)) else None;
     a_action := "policy.deny";
     a_resource := "Policy:" +:+ s_id subject;
     payload := DenyPayload subject action resource context
                  (reason result) (matchedRuleId result) |}.

(** The record [updatePolicyDocument] writes. *)
Definition update_record (tenant : string) (policy : PolicyDocument) (actor : Z)
    : AuditRecord :=
  {| actorId := Some actor; actorUserId := None;
     a_action := "owner.policy.update"; a_resource := "Policy";
     payload := UpdatePayload tenant (version policy) |}.

(** The configuration [updatePolicyDocument] stores:
    [{ ...tenant.configuration, policyEngine: policy }]. *)
Definition updated_configuration (row : Tenant) (policy : PolicyDocument)
    : Configuration :=
  {| policyEngine := Some policy;
     otherSections :=
       match configuration row with
       | Some c => otherSections c
       | None => ∅
       end |}.

(** The audit records a trace wrote, in order. *)
Definition audit_writes (tr : list Event) : list AuditRecord :=
  flat_map (λ e, match e with EvAudit r => [r] | _ => [] end) tr.

(** No collaborator call fails. *)
Definition no_fault : Op → string → bool := λ _ _, false.

(** The tail every branch of [evaluate] ends with: cache the result, write
    the deny audit when the result is a denial, return the result. *)
Definition respond (fault : Op → string → bool) (subject : PolicySubject)
    (action resource : string) (context : PolicyContext) (key : string)
    (result : PolicyResult) : M PolicyResult :=
  let* _ := cacheEvalResult fault key result in
  if denied result then
    let* _ := logPolicyDeny fault subject action resource context
                (reason result) (matchedRuleId result) in
    ret result
  else ret result.

(** *** Worlds the service can be in *)

(** What the service's keys may hold: an evaluation result in the cache is
    a terminal one and sits under an evaluation key, a document sits under
    a document key. *)
Definition entry_ok (key : string) (v : CacheValue) : Prop :=
  match v with
  | EvalEntry r => terminal r ∧ String.prefix EVAL_CACHE_PREFIX key = true
  | DocEntry _ => String.prefix POLICY_CACHE_PREFIX key = true
  end.

Definition cache_ok (w : World) : Prop := map_Forall entry_ok (redis w).

(** One step of the system around the cache: a call of one of the service's
    methods, with any collaborator failing or not; the expiry of a key; any
    change of the tenant table, the audit trail and the clock made
    elsewhere. *)
Inductive step : World → World → Prop :=
| step_evaluate fault subject action resource context w o w' tr :
    evaluate fault subject action resource context w = (o, w', tr) → step w w'
| step_getPolicyDocument fault tenant w o w' tr :
    getPolicyDocument fault tenant w = (o, w', tr) → step w w'
| step_invalidatePolicyCache fault tenant w o w' tr :
    invalidatePolicyCache fault tenant w = (o, w', tr) → step w w'
| step_updatePolicyDocument fault tenant policy actor w o w' tr :
    updatePolicyDocument fault tenant policy actor w = (o, w', tr) → step w w'
| step_expire key w :
    step w (with_redis (delete key) w)
| step_elsewhere w ts trail time :
    step w {| redis := redis w; tenants := ts; auditTrail := trail; clock := time |}.

(** The worlds reached from an empty cache. *)
Inductive reachable : World → Prop :=
| reachable_start w : redis w = ∅ → reachable w
| reachable_step w w' : reachable w → step w w' → reachable w'.

(** *** The paths through the service's methods *)

(** The document a tenant row yields when it passes the version check;
    [None] when [getPolicyDocument] falls back to [DEFAULT_POLICY] (no row,
    no configuration, or a version other than 1). *)
Definition loadable (row : option Tenant) : option PolicyDocument :=
  match row with
  | Some {| configuration := Some c |} =>
      let policyDoc := default DEFAULT_POLICY (policyEngine c) in
      if (version policyDoc =? 1)%Z then Some policyDoc else None
  | _ => None
  end.

Definition is_evaluation (e : Event) : bool :=
  match e with
  | EvRBAC _ | EvABAC _ => true
  | _ => false
  end.

(** The evaluator runs a trace records, in order. *)
Definition evaluations (tr : list Event) : list Event := List.filter is_evaluation tr.

(** The five ways a call of [evaluate] can go. *)
Inductive evaluate_path (fault : Op → string → bool) (subject : SubjectArg)
    (action resource : string) (context : PolicyContext) (w : World)
    : Outcome PolicyResult → World → list Event → Prop :=
| path_read_failed :
    fault RedisGet (getEvalCacheKey (normalize subject) action resource context) = true →
    evaluate_path fault subject action resource context w
      (Throw (IOFailure RedisGet)) w []
| path_hit cached :
    fault RedisGet (getEvalCacheKey (normalize subject) action resource context) = false →
    redis w !! getEvalCacheKey (normalize subject) action resource context = Some cached →
    evaluate_path fault subject action resource context w
      (Ok (as_PolicyResult cached)) w
      [EvRedisGet (getEvalCacheKey (normalize subject) action resource context)]
| path_load_failed e w1 t1 :
    fault RedisGet (getEvalCacheKey (normalize subject) action resource context) = false →
    redis w !! getEvalCacheKey (normalize subject) action resource context = None →
    getPolicyDocument fault (tenantId context) w = (Throw e, w1, t1) →
    evaluate_path fault subject action resource context w
      (Throw e) w1
      (EvRedisGet (getEvalCacheKey (normalize subject) action resource context) :: t1)
| path_rbac_threw policyDoc w1 t1 :
    fault RedisGet (getEvalCacheKey (normalize subject) action resource context) = false →
    redis w !! getEvalCacheKey (normalize subject) action resource context = None →
    getPolicyDocument fault (tenantId context) w = (Ok policyDoc, w1, t1) →
    evaluateRBAC_throws (normalize subject) policyDoc = true →
    evaluate_path fault subject action resource context w
      (Throw (Error "TypeError")) w1
      (EvRedisGet (getEvalCacheKey (normalize subject) action resource context) :: t1)
| path_decided policyDoc w1 t1 o w2 t2 :
    fault RedisGet (getEvalCacheKey (normalize subject) action resource context) = false →
    redis w !! getEvalCacheKey (normalize subject) action resource context = None →
    getPolicyDocument fault (tenantId context) w = (Ok policyDoc, w1, t1) →
    evaluateRBAC_throws (normalize subject) policyDoc = false →
    respond fault (normalize subject) action resource context
      (getEvalCacheKey (normalize subject) action resource context)
      (verdict
         (evaluateRBAC (normalize subject) action resource context policyDoc)
         (evaluateABAC (clock w1) (normalize subject) action resource context policyDoc))
      w1 = (o, w2, t2) →
    evaluate_path fault subject action resource context w o w2
      (EvRedisGet (getEvalCacheKey (normalize subject) action resource context)
       :: t1 ++
       consulted
         (evaluateRBAC (normalize subject) action resource context policyDoc)
         (evaluateABAC (clock w1) (normalize subject) action resource context policyDoc)
       ++ t2).

(** *** Scenarios *)

Definition request_context (workspace : option string) (user : option Z)
    : PolicyContext :=
  {| tenantId := "acme"; workspaceId := workspace; userId := user;
     requestId := "req-1"; ip := "10.0.0.1"; ua := "curl"; deviceId := "dev-1";
     geo := None |}.

Definition world_of (ts : gmap string Tenant) : World :=
  {| redis := ∅; tenants := ts; auditTrail := []; clock := 1000 |}.

Definition tenant_with (d : PolicyDocument) : Tenant :=
  {| configuration := Some {| policyEngine := Some d; otherSections := ∅ |} |}.

(** A tenant whose role VIEWER is denied [delete] on articles while an ABAC
    rule allows the very same request. *)
Definition deny_delete : Permission :=
  {| p_resource := "Article"; p_actions := ["delete"]; p_effect := DENY;
     p_scope := "all" |}.

Definition allow_delete_rule : PolicyRule :=
  {| r_id := "allow-delete"; r_effect := ALLOW;
     r_subject := {| s_type := "role"; s_id := "VIEWER" |};
     r_action := "delete"; r_resource := "Article";
     r_conditions := None; r_priority := 0 |}.

Definition viewer_document : PolicyDocument :=
  {| version := 1;
     roles := {[ "VIEWER" := {| permissions := [deny_delete] |} ]};
     rules := [allow_delete_rule]; denyByDefault := true |}.



(** A tenant with no role permissions and one ABAC rule that allows role
    EDITOR to read articles for user 1 only. *)
Definition editor_rule : PolicyRule :=
  {| r_id := "r1"; r_effect := ALLOW;
     r_subject := {| s_type := "role"; s_id := "EDITOR" |};
     r_action := "read"; r_resource := "Article";
     r_conditions :=
       Some {| c_tenantId := None; c_workspaceId := None;
               c_userIds := Some [1%Z]; c_time := None |};
     r_priority := 0 |}.

Definition editor_document : PolicyDocument :=
  {| version := 1; roles := ∅; rules := [editor_rule]; denyByDefault := true |}.

Definition editor_world : World := world_of {[ "acme" := tenant_with editor_document ]}.

(** User 1 asks first; [after_user1] is the world that call leaves. *)
Definition user1_run :=
  evaluate no_fault (RoleName "EDITOR") "read" "Article"
    (request_context None (Some 1)) editor_world.

Definition after_user1 : World := snd (fst user1_run).

(** A tenant nobody configured, asked twice. *)
Definition bare_world : World := world_of ∅.

Definition first_run :=
  evaluate no_fault (RoleName "EDITOR") "read" "Article"
    (request_context None (Some 2)) bare_world.

Definition after_first : World := snd (fst first_run).

(** The last component of the evaluation-cache key: the workspace id when
    it is present, ["global"] otherwise. *)
Definition workspace_scope (context : PolicyContext) : string :=
  if truthy (workspaceId context) then default "" (workspaceId context) else "global".

(** The second call of the unconfigured-tenant scenario. *)
Definition second_run :=
  evaluate no_fault (RoleName "EDITOR") "read" "Article"
    (request_context None (Some 2)) after_first.

(** User 2 asks after user 1. *)
Definition user2_run :=
  evaluate no_fault (RoleName "EDITOR") "read" "Article"
    (request_context None (Some 2)) after_user1.

(** Collaborators of which exactly one call fails: [bad] on [at]. *)
Definition op_eqb (a b : Op) : bool :=
  match a, b with
  | RedisGet, RedisGet | RedisSet, RedisSet | RedisDel, RedisDel
  | DbFind, DbFind | DbUpdate, DbUpdate | AuditLog, AuditLog => true
  | _, _ => false
  end.

Definition only_fails (bad : Op) (at_key : string) : Op → string → bool :=
  λ op on, op_eqb bad op && (on =? at_key).

Definition editor_key : string := "policy:eval:acme:role:EDITOR:read:Article:global".

(** User 2 asks while the evaluation-cache write fails. *)
Definition write_failed_run :=
  evaluate (only_fails RedisSet editor_key) (RoleName "EDITOR") "read" "Article"
    (request_context None (Some 2)) editor_world.

(** A tenant whose role VIEWER may read its own articles. *)
Definition own_read : Permission :=
  {| p_resource := "Article"; p_actions := ["read"]; p_effect := ALLOW;
     p_scope := "own" |}.

Definition own_document : PolicyDocument :=
  {| version := 1;
     roles := {[ "VIEWER" := {| permissions := [own_read] |} ]};
     rules := []; denyByDefault := true |}.

(** A document whose allow rule comes before its deny rule. *)
Definition deny_delete_rule : PolicyRule :=
  {| r_id := "deny-delete"; r_effect := DENY;
     r_subject := {| s_type := "role"; s_id := "VIEWER" |};
     r_action := "delete"; r_resource := "Article";
     r_conditions := None; r_priority := 0 |}.

Definition allow_then_deny : PolicyDocument :=
  {| version := 1; roles := ∅;
     rules := [allow_delete_rule; deny_delete_rule]; denyByDefault := true |}.

Definition default_denial : PolicyResult :=
  {| allowed := false; denied := true;
     reason := "Denied by default (no allow/deny rule matched)";
     matchedRuleId := None |}.

(** *** The same world with other ABAC rules *)

Definition with_rules (rs : list PolicyRule) (d : PolicyDocument) : PolicyDocument :=
  {| version := version d; roles := roles d; rules := rs;
     denyByDefault := denyByDefault d |}.




(** * Vocabulary of the further properties *)

(** The document with the permission list of one role replaced. *)
Definition with_role_permissions (role : string) (ps : list Permission)
    (d : PolicyDocument) : PolicyDocument :=
  {| version := version d;
     roles := <[role := {| permissions := ps |}]> (roles d);
     rules := rules d; denyByDefault := denyByDefault d |}.

(** The rule with another priority. *)
Definition set_priority (f : PolicyRule → Z) (rule : PolicyRule) : PolicyRule :=
  {| r_id := r_id rule; r_effect := r_effect rule; r_subject := r_subject rule;
     r_action := r_action rule; r_resource := r_resource rule;
     r_conditions := r_conditions rule; r_priority := f rule |}.

(** The rule with other conditions. *)
Definition set_conditions (c : option RuleConditions) (rule : PolicyRule) : PolicyRule :=
  {| r_id := r_id rule; r_effect := r_effect rule; r_subject := r_subject rule;
     r_action := r_action rule; r_resource := r_resource rule;
     r_conditions := c; r_priority := r_priority rule |}.

(** Conditions that are there but ask for nothing: the tenant and workspace
    ids absent or empty, the user list absent or empty, the time window
    absent or without bounds. *)
Definition vacuous (c : RuleConditions) : Prop :=
  truthy (c_tenantId c) = false ∧
  truthy (c_workspaceId c) = false ∧
  (c_userIds c = None ∨ c_userIds c = Some []) ∧
  (c_time c = None ∨ c_time c = Some {| t_start := None; t_end := None |}).

(** Conditions that hold a time window and nothing else. *)
Definition time_only (tw : TimeWindow) : RuleConditions :=
  {| c_tenantId := None; c_workspaceId := None; c_userIds := None;
     c_time := Some tw |}.

(** A rule of the document matches the request. *)
Definition matches_in (now : Z) (subject : PolicySubject) (action resource : string)
    (context : PolicyContext) (policyDoc : PolicyDocument) (rule : PolicyRule) : Prop :=
  In rule (rules policyDoc) ∧
  rule_matches now subject action resource context rule = true.

(** No [:] in the string. *)
Fixpoint colon_free (s : string) : bool :=
  match s with
  | EmptyString => true
  | String a s' => negb (Ascii.eqb a ":") && colon_free s'
  end.

(** *** Further scenarios *)

Definition shadowed_read : Permission :=
  {| p_resource := "Article"; p_actions := ["read"]; p_effect := DENY;
     p_scope := "all" |}.

Definition office_hours : TimeWindow := {| t_start := Some 900; t_end := Some 1700 |}.

Definition viewer : PolicySubject := {| s_type := "role"; s_id := "VIEWER" |}.

Definition editor : PolicySubject := {| s_type := "role"; s_id := "EDITOR" |}.

(** * Properties *)

(** ** JavaScript helpers *)

Lemma truthy_true (s : option string) :
  truthy s = true ↔ ∃ v, s = Some v ∧ v ≠ "".
Proof.
  destruct s as [v|]; simpl.
  - rewrite negb_true_iff, String.eqb_neq. split.
    + intros Hv. exists v. done.
    + intros (v' & [= <-] & Hv). done.
  - split; [done | intros (v & ? & _); done].
Qed.

Lemma truthy_workspace_present context :
  truthy (workspaceId context) = true ↔ workspace_present context.
Proof. apply truthy_true. Qed.

Lemma truthy_workspace_absent context :
  truthy (workspaceId context) = false ↔ ¬ workspace_present context.
Proof.
  rewrite <- truthy_workspace_present.
  destruct (truthy (workspaceId context)); split; congruence.
Qed.

(** ** The RBAC evaluator *)

(** Every RBAC result is one of: no opinion, deny, allow; never both flags. *)
Lemma evaluateRBAC_flags subject action resource context policyDoc :
  let r := evaluateRBAC subject action resource context policyDoc in
  allowed r && denied r = false.
Proof.
  unfold evaluateRBAC.
  repeat (case_match; simpl; try done).
Qed.

(** The RBAC evaluator never reads the rule list. *)
Lemma evaluateRBAC_rules_irrelevant subject action resource context d rs :
  evaluateRBAC subject action resource context
    {| version := version d; roles := roles d; rules := rs;
       denyByDefault := denyByDefault d |}
  = evaluateRBAC subject action resource context d.
Proof. reflexivity. Qed.

(** C9. For a role subject whose permission for the resource lists the
    action and has effect allow, the scope decides: under ['own'] and under
    ['workspace'] alike the result is allowed when [context.workspaceId] is
    present and a deny (not a fall-through) when it is not; under ['all'] it
    is allowed; under any other scope it is no opinion, both flags false. *)
Theorem evaluateRBAC_scope subject action resource context policyDoc
    rolePermissions permission :
  s_type subject = "role" →
  roles policyDoc !! s_id subject = Some rolePermissions →
  find (λ p, p_resource p =? resource) (permissions rolePermissions) = Some permission →
  includes_str (p_actions permission) action = true →
  p_effect permission = ALLOW →
  let r := evaluateRBAC subject action resource context policyDoc in
  (p_scope permission = "own" ∨ p_scope permission = "workspace" →
     (workspace_present context → allowed r = true ∧ denied r = false) ∧
     (¬ workspace_present context → allowed r = false ∧ denied r = true)) ∧
  (p_scope permission = "all" → allowed r = true ∧ denied r = false) ∧
  (p_scope permission ≠ "own" → p_scope permission ≠ "workspace" →
   p_scope permission ≠ "all" →
     allowed r = false ∧ denied r = false ∧
     reason r = "Unknown scope: " +:+ p_scope permission).
Proof.
  intros Hty Hrole Hfind Hact Heff. unfold evaluateRBAC.
  rewrite Hty, Hrole, Hfind, Hact, Heff. simpl.
  split; [|split].
  - intros Hscope. split; intros Hws.
    + apply truthy_workspace_present in Hws.
      destruct Hscope as [-> | ->]; simpl; rewrite Hws; done.
    + apply truthy_workspace_absent in Hws.
      destruct Hscope as [-> | ->]; simpl; rewrite Hws; done.
  - intros ->. done.
  - intros Hown Hwsp Hall.
    apply String.eqb_neq in Hown, Hwsp, Hall.
    rewrite Hown, Hwsp, Hall. done.
Qed.

(** ** The ABAC evaluator *)

Lemma insert_sorted_deny x l :
  r_effect x = DENY → insert_sorted compareRules x l = x :: l.
Proof.
  intros Hx. destruct l as [|y l]; [done|].
  simpl. unfold compareRules. rewrite Hx. by destruct (r_effect y).
Qed.

Lemma insert_sorted_allow x ds als :
  r_effect x = ALLOW →
  Forall (λ y, r_effect y = DENY) ds →
  Forall (λ y, r_effect y = ALLOW) als →
  insert_sorted compareRules x (ds ++ als) = ds ++ x :: als.
Proof.
  intros Hx Hds Hals. induction Hds as [|y ds Hy _ IH]; simpl.
  - destruct Hals as [|z als Hz _]; [done|].
    simpl. unfold compareRules. by rewrite Hx, Hz.
  - unfold compareRules at 1. rewrite Hx, Hy. simpl. by rewrite IH.
Qed.

Lemma filter_is_deny l : Forall (λ y, r_effect y = DENY) (List.filter is_deny l).
Proof.
  apply List.Forall_forall. intros y [_ Hy]%List.filter_In.
  unfold is_deny in Hy. by destruct (r_effect y).
Qed.

Lemma filter_is_allow l : Forall (λ y, r_effect y = ALLOW) (List.filter is_allow l).
Proof.
  apply List.Forall_forall. intros y [_ Hy]%List.filter_In.
  unfold is_allow in Hy. by destruct (r_effect y).
Qed.

(** Sorting with [compareRules] is the two-pass partition: the deny rules
    in their original order, then the allow rules in theirs. *)
Lemma sort_compareRules l :
  sort compareRules l = List.filter is_deny l ++ List.filter is_allow l.
Proof.
  induction l as [|x l IH]; [done|].
  unfold sort in *. simpl. rewrite IH.
  unfold is_deny at 2, is_allow at 2.
  destruct (r_effect x) eqn:Hx.
  - apply insert_sorted_allow; auto using filter_is_deny, filter_is_allow.
  - by apply insert_sorted_deny.
Qed.

Lemma evaluateABAC_first now subject action resource context policyDoc :
  evaluateABAC now subject action resource context policyDoc =
    match List.filter is_deny (matching now subject action resource context policyDoc)
          ++ List.filter is_allow (matching now subject action resource context policyDoc)
    with
    | rule :: _ => verdict_of rule
    | [] => {| allowed := false; denied := false;
               reason := "No ABAC rules matched"; matchedRuleId := None |}
    end.
Proof.
  unfold evaluateABAC. fold (matching now subject action resource context policyDoc).
  rewrite sort_compareRules.
  destruct (_ ++ _) as [|rule ?]; [done|].
  unfold verdict_of. by destruct (r_effect rule).
Qed.

Lemma evaluateABAC_flags now subject action resource context policyDoc :
  let r := evaluateABAC now subject action resource context policyDoc in
  allowed r && denied r = false.
Proof.
  simpl. rewrite evaluateABAC_first.
  destruct (_ ++ _) as [|rule ?]; [done|].
  unfold verdict_of. by destruct (r_effect rule).
Qed.

(** C3. Among the rules matching a request the comparator puts every deny
    rule before every allow rule and keeps the document order within each
    effect; the first rule of that order gives the result its effect and
    its [matchedRuleId]: the first matching deny rule if there is one, else
    the first matching allow rule; so a matching deny rule and a matching
    allow rule give deny with the deny rule's id in either document order;
    with no matching rule the result is no opinion, reason
    [No ABAC rules matched]. *)
Theorem evaluateABAC_deny_first now subject action resource context policyDoc :
  let m := matching now subject action resource context policyDoc in
  let r := evaluateABAC now subject action resource context policyDoc in
  sort compareRules m = List.filter is_deny m ++ List.filter is_allow m ∧
  (∀ rule rest, sort compareRules m = rule :: rest →
     allowed r = is_allow rule ∧ denied r = is_deny rule ∧
     matchedRuleId r = Some (r_id rule)) ∧
  (∀ d rest, List.filter is_deny m = d :: rest →
     allowed r = false ∧ denied r = true ∧ matchedRuleId r = Some (r_id d)) ∧
  (∀ al rest, List.filter is_deny m = [] → List.filter is_allow m = al :: rest →
     allowed r = true ∧ denied r = false ∧ matchedRuleId r = Some (r_id al)) ∧
  (∀ d al, r_effect d = DENY → r_effect al = ALLOW →
     m = [d; al] ∨ m = [al; d] →
     allowed r = false ∧ denied r = true ∧ matchedRuleId r = Some (r_id d)) ∧
  (m = [] →
     allowed r = false ∧ denied r = false ∧
     reason r = "No ABAC rules matched" ∧ matchedRuleId r = None).
Proof.
  intros m r. split; [apply sort_compareRules|].
  subst r. rewrite evaluateABAC_first. fold m. rewrite sort_compareRules.
  split_and!.
  - intros rule rest ->. unfold verdict_of, is_allow, is_deny.
    by destruct (r_effect rule).
  - intros d rest Hd.
    pose proof (filter_is_deny m) as Hall. rewrite Hd in Hall.
    apply Forall_cons_1 in Hall as [Heff _].
    rewrite Hd. simpl. unfold verdict_of. by rewrite Heff.
  - intros al rest Hnone Hal.
    pose proof (filter_is_allow m) as Hall. rewrite Hal in Hall.
    apply Forall_cons_1 in Hall as [Heff _].
    rewrite Hnone, Hal. simpl. unfold verdict_of. by rewrite Heff.
  - intros d al Hd Hal [-> | ->]; simpl; unfold is_deny, is_allow;
      rewrite Hd, Hal; simpl; unfold verdict_of; rewrite Hd; done.
  - intros ->. done.
Qed.

(** ** Running the service *)

Lemma verdict_terminal rbac abac : terminal (verdict rbac abac).
Proof. unfold verdict, terminal. repeat case_match; done. Qed.

Section Runs.
Variable fault : Op → string → bool.

Lemma respond_run subject action resource context key result w :
  respond fault subject action resource context key result w =
    if fault RedisSet key then (Throw (IOFailure RedisSet), w, [])
    else
      let w1 := with_redis <[key := EvalEntry result]> w in
      let set := EvRedisSet key (EvalEntry result) 60 in
      if denied result then
        if fault AuditLog "policy.deny" then (Throw (IOFailure AuditLog), w1, [set])
        else (Ok result,
              with_audit (deny_record subject action resource context result) w1,
              [set; EvAudit (deny_record subject action resource context result)])
      else (Ok result, w1, [set]).
Proof.
  unfold respond, bind, cacheEvalResult, logPolicyDeny, logAction, redis_set,
    io, throw, ret.
  cbn [a_action].
  destruct (fault RedisSet key), (denied result), (fault AuditLog "policy.deny"); reflexivity.
Qed.

(** [evaluate] in one piece: the cache read; on a miss the document, the
    evaluators that are consulted, and the common tail on their verdict. *)
Lemma evaluate_run subject action resource context w :
  evaluate fault subject action resource context w =
    let ns := normalize subject in
    let key := getEvalCacheKey ns action resource context in
    if fault RedisGet key then (Throw (IOFailure RedisGet), w, [])
    else
      match redis w !! key with
      | Some cached => (Ok (as_PolicyResult cached), w, [EvRedisGet key])
      | None =>
          match getPolicyDocument fault (tenantId context) w with
          | (Throw e, w1, t1) => (Throw e, w1, EvRedisGet key :: t1)
          | (Ok policyDoc, w1, t1) =>
              if evaluateRBAC_throws ns policyDoc
              then (Throw (Error "TypeError"), w1, EvRedisGet key :: t1)
              else
                let rbac := evaluateRBAC ns action resource context policyDoc in
                let abac := evaluateABAC (clock w1) ns action resource context policyDoc in
                match respond fault ns action resource context key (verdict rbac abac) w1 with
                | (o, w2, t2) => (o, w2, EvRedisGet key :: t1 ++ consulted rbac abac ++ t2)
                end
          end
      end.
Proof.
  cbv zeta. unfold evaluate.
  set (ns := normalize subject).
  set (key := getEvalCacheKey ns action resource context).
  unfold bind at 1. unfold redis_get, io.
  destruct (fault RedisGet key) eqn:Hget; [reflexivity|].
  destruct (redis w !! key) as [cached|] eqn:Hkey; [reflexivity|].
  unfold bind at 1.
  destruct (getPolicyDocument fault (tenantId context) w) as [[[policyDoc|e] w1] t1];
    [|reflexivity].
  unfold call_evaluateRBAC.
  destruct (evaluateRBAC_throws ns policyDoc) eqn:Hthrows;
    [unfold bind, throw; by rewrite app_nil_r|].
  rewrite respond_run. unfold verdict, consulted.
  unfold bind, emit, now, cacheEvalResult, logPolicyDeny, logAction, redis_set,
    io, ret, throw, deny_record.
  cbn [a_action]. cbv beta iota zeta.
  destruct (denied (evaluateRBAC ns action resource context policyDoc)),
    (allowed (evaluateRBAC ns action resource context policyDoc)),
    (denied (evaluateABAC (clock w1) ns action resource context policyDoc)),
    (allowed (evaluateABAC (clock w1) ns action resource context policyDoc)),
    (fault RedisSet key), (fault AuditLog "policy.deny"); reflexivity.
Qed.

Lemma evaluate_inv subject action resource context w o w' tr :
  evaluate fault subject action resource context w = (o, w', tr) →
  evaluate_path fault subject action resource context w o w' tr.
Proof.
  rewrite evaluate_run. cbv zeta.
  destruct (fault RedisGet _) eqn:Hget.
  { intros [= <- <- <-]. by constructor. }
  destruct (redis w !! _) as [cached|] eqn:Hkey.
  { intros [= <- <- <-]. by constructor. }
  destruct (getPolicyDocument fault (tenantId context) w)
    as [[[policyDoc|e] w1] t1] eqn:Hdoc.
  - destruct (evaluateRBAC_throws _ _) eqn:Hthrows.
    { intros [= <- <- <-]. by eapply path_rbac_threw. }
    destruct (respond _ _ _ _ _ _ _ _) as [[o2 w2] t2] eqn:Hresp.
    intros [= <- <- <-]. by eapply path_decided.
  - intros [= <- <- <-]. by constructor.
Qed.

Lemma getPolicyDocument_run tenant w :
  getPolicyDocument fault tenant w =
    let cacheKey := POLICY_CACHE_PREFIX +:+ tenant in
    if fault RedisGet cacheKey then (Throw (IOFailure RedisGet), w, [])
    else
      match redis w !! cacheKey with
      | Some (DocEntry d) => (Ok d, w, [EvRedisGet cacheKey])
      | Some (EvalEntry _) => (Throw (Error "TypeError"), w, [EvRedisGet cacheKey])
      | None =>
          if fault DbFind tenant then (Throw (IOFailure DbFind), w, [EvRedisGet cacheKey])
          else
            match loadable (tenants w !! tenant) with
            | None => (Ok DEFAULT_POLICY, w, [EvRedisGet cacheKey; EvDbFind tenant])
            | Some policyDoc =>
                if fault RedisSet cacheKey
                then (Throw (IOFailure RedisSet), w,
                      [EvRedisGet cacheKey; EvDbFind tenant])
                else (Ok policyDoc, with_redis <[cacheKey := DocEntry policyDoc]> w,
                      [EvRedisGet cacheKey; EvDbFind tenant;
                       EvRedisSet cacheKey (DocEntry policyDoc) CACHE_TTL])
            end
      end.
Proof.
  cbv zeta. unfold getPolicyDocument, bind, redis_get, tenant_findUnique,
    redis_set, io, ret, throw, loadable.
  destruct (fault RedisGet _); [reflexivity|].
  destruct (redis w !! _) as [[d|r]|]; [reflexivity..|].
  destruct (fault DbFind _); [reflexivity|].
  destruct (tenants w !! tenant) as [[[c|]]|]; [|reflexivity..].
  cbn [configuration]. cbv beta iota zeta.
  destruct (version (default DEFAULT_POLICY (policyEngine c)) =? 1)%Z,
    (fault RedisSet _); reflexivity.
Qed.

(** *** What the traces hold *)


Lemma audit_writes_app t1 t2 :
  audit_writes (t1 ++ t2) = audit_writes t1 ++ audit_writes t2.
Proof. apply List.flat_map_app. Qed.


Lemma audit_writes_consulted rbac abac : audit_writes (consulted rbac abac) = [].
Proof. unfold consulted. by destruct (denied rbac || allowed rbac). Qed.


Lemma getPolicyDocument_quiet tenant w o w1 t1 :
  getPolicyDocument fault tenant w = (o, w1, t1) →
  evaluations t1 = [] ∧ audit_writes t1 = [] ∧
  auditTrail w1 = auditTrail w ∧ tenants w1 = tenants w ∧ clock w1 = clock w.
Proof.
  rewrite getPolicyDocument_run. cbv zeta.
  repeat case_match; intros [= <- <- <-]; done.
Qed.

Lemma respond_quiet subject action resource context key result w1 o w2 t2 :
  respond fault subject action resource context key result w1 = (o, w2, t2) →
  evaluations t2 = [] ∧ tenants w2 = tenants w1 ∧ clock w2 = clock w1.
Proof.
  rewrite respond_run. cbv zeta.
  repeat case_match; intros [= <- <- <-]; done.
Qed.

(** A result that [respond] returns is the one it was given; it is then
    in the cache, and the audit trail has grown by the deny record exactly
    when the result is a denial. *)
Lemma respond_returns subject action resource context key result w1 r w2 t2 :
  respond fault subject action resource context key result w1 = (Ok r, w2, t2) →
  r = result ∧
  redis w2 !! key = Some (EvalEntry result) ∧
  audit_writes t2 =
    (if denied result
     then [deny_record subject action resource context result] else []) ∧
  auditTrail w2 = auditTrail w1 ++ audit_writes t2.
Proof.
  rewrite respond_run. cbv zeta.
  repeat case_match; intros [= <- <- <-]; simpl;
    rewrite ?lookup_insert_eq, ?app_nil_r; done.
Qed.











(** *** The cache invariant *)

Lemma prefix_append (p s : string) : String.prefix p (p +:+ s) = true.
Proof.
  induction p as [|a p IH]; simpl.
  - by destruct s.
  - by destruct (ascii_dec a a).
Qed.

Lemma doc_key_is_doc_key tenant :
  String.prefix POLICY_CACHE_PREFIX (POLICY_CACHE_PREFIX +:+ tenant) = true.
Proof. apply prefix_append. Qed.

Lemma eval_key_not_doc_key subject action resource context :
  String.prefix POLICY_CACHE_PREFIX
    (getEvalCacheKey subject action resource context) = false.
Proof. reflexivity. Qed.

Lemma eval_key_is_eval_key subject action resource context :
  String.prefix EVAL_CACHE_PREFIX
    (getEvalCacheKey subject action resource context) = true.
Proof. apply prefix_append. Qed.


Lemma cache_ok_insert key v w :
  entry_ok key v → cache_ok w → cache_ok (with_redis <[key := v]> w).
Proof. intros Hv Hw. by apply map_Forall_insert_2. Qed.

Lemma cache_ok_delete key w : cache_ok w → cache_ok (with_redis (delete key) w).
Proof. intros Hw. by apply map_Forall_delete. Qed.

Lemma getPolicyDocument_cache_ok tenant w o w1 t1 :
  getPolicyDocument fault tenant w = (o, w1, t1) → cache_ok w → cache_ok w1.
Proof.
  rewrite getPolicyDocument_run. cbv zeta. intros Hrun Hw.
  repeat case_match; injection Hrun as <- <- <-; try done.
  apply cache_ok_insert; [apply doc_key_is_doc_key | done].
Qed.

Lemma respond_cache_ok subject action resource context key result w1 o w2 t2 :
  respond fault subject action resource context key result w1 = (o, w2, t2) →
  terminal result → String.prefix EVAL_CACHE_PREFIX key = true →
  cache_ok w1 → cache_ok w2.
Proof.
  rewrite respond_run. cbv zeta. intros Hrun Hres Hkey Hw.
  repeat case_match; injection Hrun as <- <- <-; try done;
    by apply (cache_ok_insert key (EvalEntry result)).
Qed.

Lemma evaluate_cache_ok subject action resource context w o w' tr :
  evaluate fault subject action resource context w = (o, w', tr) →
  cache_ok w → cache_ok w'.
Proof.
  intros Hrun Hw. apply evaluate_inv in Hrun.
  destruct Hrun as [Hget | cached Hget Hkey | err w1 t1 Hget Hkey Hdoc
                   | policyDoc w1 t1 Hget Hkey Hdoc Hthrows
                   | policyDoc w1 t1 o w2 t2 Hget Hkey Hdoc Hthrows Hresp]; try done.
  - by eapply getPolicyDocument_cache_ok.
  - by eapply getPolicyDocument_cache_ok.
  - eapply respond_cache_ok;
      [done | apply verdict_terminal | apply eval_key_is_eval_key |].
    by eapply getPolicyDocument_cache_ok.
Qed.

Lemma invalidatePolicyCache_cache_ok tenant w o w' tr :
  invalidatePolicyCache fault tenant w = (o, w', tr) → cache_ok w → cache_ok w'.
Proof.
  unfold invalidatePolicyCache, redis_del, io, throw. intros Hrun Hw.
  destruct (fault RedisDel _); injection Hrun as <- <- <-; [done|].
  by apply cache_ok_delete.
Qed.

(** [updatePolicyDocument], case by case. *)
Lemma updatePolicyDocument_run tenant policy actor w :
  updatePolicyDocument fault tenant policy actor w =
    if fault DbFind tenant then (Throw (IOFailure DbFind), w, [])
    else
      match tenants w !! tenant with
      | None => (Throw TenantNotFound, w, [EvDbFind tenant])
      | Some row =>
          let c := updated_configuration row policy in
          let w1 := with_tenants <[tenant := {| configuration := Some c |}]> w in
          let w2 := with_redis (delete (POLICY_CACHE_PREFIX +:+ tenant)) w1 in
          if fault DbUpdate tenant then (Throw (IOFailure DbUpdate), w, [EvDbFind tenant])
          else if fault RedisDel (POLICY_CACHE_PREFIX +:+ tenant)
          then (Throw (IOFailure RedisDel), w1, [EvDbFind tenant; EvDbUpdate tenant c])
          else if fault AuditLog "owner.policy.update"
          then (Throw (IOFailure AuditLog), w2,
                [EvDbFind tenant; EvDbUpdate tenant c;
                 EvRedisDel (POLICY_CACHE_PREFIX +:+ tenant)])
          else (Ok tt, with_audit (update_record tenant policy actor) w2,
                [EvDbFind tenant; EvDbUpdate tenant c;
                 EvRedisDel (POLICY_CACHE_PREFIX +:+ tenant);
                 EvAudit (update_record tenant policy actor)])
      end.
Proof.
  cbv zeta. unfold updatePolicyDocument, bind, tenant_findUnique, tenant_update,
    invalidatePolicyCache, redis_del, logAction, io, throw, ret,
    updated_configuration, update_record.
  cbn [a_action].
  destruct (fault DbFind _); [reflexivity|].
  destruct (tenants w !! tenant) as [row|] eqn:Hrow; [|reflexivity].
  destruct (fault DbUpdate _); [reflexivity|]. rewrite Hrow.
  destruct (fault RedisDel _); [reflexivity|].
  destruct (fault AuditLog _); reflexivity.
Qed.

Lemma updatePolicyDocument_cache_ok tenant policy actor w o w' tr :
  updatePolicyDocument fault tenant policy actor w = (o, w', tr) →
  cache_ok w → cache_ok w'.
Proof.
  rewrite updatePolicyDocument_run. cbv zeta. intros Hrun Hw.
  repeat case_match; injection Hrun as <- <- <-; try done;
    by apply map_Forall_delete.
Qed.

End Runs.

Lemma step_cache_ok w w' : step w w' → cache_ok w → cache_ok w'.
Proof.
  destruct 1; eauto using evaluate_cache_ok, getPolicyDocument_cache_ok,
    invalidatePolicyCache_cache_ok, updatePolicyDocument_cache_ok, cache_ok_delete.
Qed.

Lemma reachable_cache_ok w : reachable w → cache_ok w.
Proof.
  induction 1 as [w Hempty | w w' _ IH Hstep].
  - unfold cache_ok. rewrite Hempty. apply map_Forall_empty.
  - by eapply step_cache_ok.
Qed.

(** C4. From an empty cache on, every result [evaluate] returns has exactly
    one of [allowed] and [denied] set, on the cache-hit path as on the
    others: never both, never neither. *)
Theorem evaluate_result_terminal fault subject action resource context w result w' tr :
  reachable w →
  evaluate fault subject action resource context w = (Ok result, w', tr) →
  (allowed result = true ∧ denied result = false) ∨
  (allowed result = false ∧ denied result = true).
Proof.
  intros Hw%reachable_cache_ok Hrun.
  assert (Hterm : terminal result).
  { apply evaluate_inv in Hrun.
    inversion Hrun as [| cached Hget Hkey | | |
                     policyDoc w1 t1 o w2 t2 Hget Hkey Hdoc Hthrows Hresp];
      subst.
    - apply Hw in Hkey. destruct cached as [d|r]; [|by destruct Hkey].
      unfold entry_ok in Hkey. by rewrite eval_key_not_doc_key in Hkey.
    - apply respond_returns in Hresp as (-> & _). apply verdict_terminal. }
  unfold terminal in Hterm.
  destruct (allowed result), (denied result); naive_solver.
Qed.

(** ** Auditing *)

(** C5, as the code has it. A call of [evaluate] that misses the evaluation
    cache and returns a denial writes exactly one audit record, the
    [policy.deny] record of that call; a call answered from the cache
    writes none, whatever decision it returns; a call that returns an
    allowed result writes none. *)
Theorem evaluate_audits_computed_denials fault subject action resource context
    w result w' tr :
  evaluate fault subject action resource context w = (Ok result, w', tr) →
  let ns := normalize subject in
  let key := getEvalCacheKey ns action resource context in
  (redis w !! key = None → denied result = true →
     audit_writes tr = [deny_record ns action resource context result] ∧
     is_deny_audit (deny_record ns action resource context result) = true ∧
     auditTrail w' = auditTrail w ++ [deny_record ns action resource context result]) ∧
  (redis w !! key ≠ None → audit_writes tr = [] ∧ auditTrail w' = auditTrail w) ∧
  (allowed result = true → audit_writes tr = [] ∧ auditTrail w' = auditTrail w).
Proof.
  intros Hrun. cbv zeta. apply evaluate_inv in Hrun.
  inversion Hrun as [| cached Hget Hkey | | |
                     policyDoc w1 t1 o w2 t2 Hget Hkey Hdoc Hthrows Hresp];
    subst.
  - rewrite Hkey. done.
  - pose proof (getPolicyDocument_quiet _ _ _ _ _ _ Hdoc) as (_ & Ha1 & Htrail & _).
    pose proof (verdict_terminal
                  (evaluateRBAC (normalize subject) action resource context policyDoc)
                  (evaluateABAC (clock w1) (normalize subject) action resource
                     context policyDoc)) as Hterm.
    apply respond_returns in Hresp as (-> & _ & Ha2 & Htrail2).
    change (audit_writes (EvRedisGet ?k :: ?t)) with (audit_writes t).
    rewrite !audit_writes_app, Ha1, audit_writes_consulted, Htrail2, Htrail. simpl.
    rewrite Ha2. unfold terminal in Hterm.
    split; [|split].
    + intros _ ->. done.
    + by rewrite Hkey.
    + intros Hallowed. rewrite Hallowed in Hterm.
      destruct (denied (verdict _ _)); [done|]. by rewrite app_nil_r.
Qed.

(** ** Policy documents *)



(** C7. With the store answering the lookup, [updatePolicyDocument] throws
    [Tenant not found] for a tenant that does not exist and then writes
    nothing: no configuration, no cache deletion, no audit record.  For a
    tenant that exists, when the writes go through, it stores the
    configuration with its [policyEngine] section replaced, then deletes
    the cached document, then writes an [owner.policy.update] audit record,
    which is not a deny audit, and returns. *)
Theorem updatePolicyDocument_effects fault tenant policy actor w :
  fault DbFind tenant = false →
  (tenants w !! tenant = None →
     updatePolicyDocument fault tenant policy actor w =
       (Throw TenantNotFound, w, [EvDbFind tenant])) ∧
  (∀ row, tenants w !! tenant = Some row →
     fault DbUpdate tenant = false →
     fault RedisDel (POLICY_CACHE_PREFIX +:+ tenant) = false →
     fault AuditLog "owner.policy.update" = false →
     let c := updated_configuration row policy in
     let key := POLICY_CACHE_PREFIX +:+ tenant in
     let record := update_record tenant policy actor in
     ∃ w',
       updatePolicyDocument fault tenant policy actor w =
         (Ok tt, w',
          [EvDbFind tenant; EvDbUpdate tenant c; EvRedisDel key; EvAudit record]) ∧
       tenants w' = <[tenant := {| configuration := Some c |}]> (tenants w) ∧
       policyEngine c = Some policy ∧
       otherSections c = from_option otherSections ∅ (configuration row) ∧
       redis w' = delete key (redis w) ∧
       redis w' !! key = None ∧
       auditTrail w' = auditTrail w ++ [record] ∧
       a_action record = "owner.policy.update" ∧
       is_deny_audit record = false).
Proof.
  intros Hfind. rewrite updatePolicyDocument_run, Hfind. cbv zeta.
  split.
  - by intros ->.
  - intros row -> -> -> ->. eexists. split; [reflexivity|].
    cbn [redis tenants auditTrail with_audit with_redis with_tenants].
    rewrite lookup_delete_eq. split_and!; done.
Qed.

(** ** Cache failures *)

(** C8, as the code has it. A failure of the evaluation-cache read or
    write is not caught by [evaluate]: with the read failing the call throws
    that failure at once; with the write failing no call that misses the
    cache returns a result, and none writes the deny audit. *)
Theorem evaluate_cache_failure_propagates fault subject action resource context w :
  (fault RedisGet (getEvalCacheKey (normalize subject) action resource context) = true →
     evaluate fault subject action resource context w =
       (Throw (IOFailure RedisGet), w, [])) ∧
  (fault RedisSet (getEvalCacheKey (normalize subject) action resource context) = true →
   redis w !! getEvalCacheKey (normalize subject) action resource context = None →
   ∀ o w' tr,
     evaluate fault subject action resource context w = (o, w', tr) →
     (∃ e, o = Throw e) ∧ audit_writes tr = [] ∧ auditTrail w' = auditTrail w).
Proof.
  split.
  - intros Hget. rewrite evaluate_run. cbv zeta. by rewrite Hget.
  - intros Hset Hmiss o w' tr Hrun. apply evaluate_inv in Hrun.
    inversion Hrun as [| cached Hget Hkey | e w1 t1 Hget Hkey Hdoc
                       | policyDoc w1 t1 Hget Hkey Hdoc Hthrows
                       | policyDoc w1 t1 o2 w2 t2 Hget Hkey Hdoc Hthrows Hresp]; subst.
    + eauto.
    + congruence.
    + apply getPolicyDocument_quiet in Hdoc as (_ & Ha & Htrail & _).
      change (audit_writes (EvRedisGet ?k :: ?t)) with (audit_writes t). eauto.
    + apply getPolicyDocument_quiet in Hdoc as (_ & Ha & Htrail & _).
      change (audit_writes (EvRedisGet ?k :: ?t)) with (audit_writes t). eauto.
    + apply getPolicyDocument_quiet in Hdoc as (_ & Ha & Htrail & _).
      rewrite respond_run, Hset in Hresp. injection Hresp as <- <- <-.
      change (audit_writes (EvRedisGet ?k :: ?t)) with (audit_writes t).
      rewrite !audit_writes_app, Ha, audit_writes_consulted. eauto.
Qed.

(** ** The evaluation-cache key *)

Lemma getEvalCacheKey_components subject action resource context :
  getEvalCacheKey subject action resource context =
    EVAL_CACHE_PREFIX +:+ tenantId context +:+ ":" +:+
    (s_type subject +:+ ":" +:+ s_id subject) +:+ ":" +:+
    action +:+ ":" +:+ resource +:+ ":" +:+ workspace_scope context.
Proof. reflexivity. Qed.

(** C10. The evaluation-cache key is made of the tenant id, the subject's
    type and id, the action, the resource, and the workspace id or
    ["global"], and of nothing else: two contexts that agree on the tenant
    and on the workspace scope give the same key whatever their [userId]
    and other fields are, so a result [evaluate] returned for the first is
    what a call for the second gets back, from the cache, untouched by any
    evaluator. *)
Theorem eval_cache_key_ignores_user subject action resource c1 c2 :
  tenantId c1 = tenantId c2 →
  workspace_scope c1 = workspace_scope c2 →
  getEvalCacheKey (normalize subject) action resource c1 =
    getEvalCacheKey (normalize subject) action resource c2 ∧
  ∀ fault w result w1 tr1,
    evaluate fault subject action resource c1 w = (Ok result, w1, tr1) →
    evaluate fault subject action resource c2 w1 =
      (Ok result, w1, [EvRedisGet (getEvalCacheKey (normalize subject) action resource c1)]).
Proof.
  intros Htenant Hscope.
  assert (Hkey : getEvalCacheKey (normalize subject) action resource c1 =
                 getEvalCacheKey (normalize subject) action resource c2).
  { by rewrite !getEvalCacheKey_components, Htenant, Hscope. }
  split; [done|].
  intros fault w result w1 tr1 Hrun. apply evaluate_inv in Hrun.
  assert (Hcached : fault RedisGet (getEvalCacheKey (normalize subject) action resource c1) = false ∧
            ∃ v, redis w1 !! getEvalCacheKey (normalize subject) action resource c1 = Some v ∧
                 as_PolicyResult v = result).
  { inversion Hrun as [| cached Hget Hk | | |
                     policyDoc w0 t1 o w2 t2 Hget Hk Hdoc Hthrows Hresp];
      subst.
    - eauto.
    - apply respond_returns in Hresp as (-> & Hin & _). eauto. }
  destruct Hcached as (Hget & v & Hv & <-).
  rewrite evaluate_run. cbv zeta. by rewrite <- Hkey, Hget, Hv.
Qed.

(** * The properties on the scenarios *)

Lemma run_eta {A} (run : Outcome A * World * list Event) :
  run = (fst (fst run), snd (fst run), snd run).
Proof. by destruct run as [[? ?] ?]. Qed.

Ltac run_eq := vm_compute; reflexivity.
Ltac in_trace := vm_compute; repeat (first [left; reflexivity | right]).

Lemma evaluateRBAC_scope_witness :
  let subject := {| s_type := "role"; s_id := "VIEWER" |} in
  let context := request_context None (Some 7) in
  (s_type subject = "role" ∧
   roles own_document !! s_id subject = Some {| permissions := [own_read] |} ∧
   find (λ p, p_resource p =? "Article") [own_read] = Some own_read ∧
   includes_str (p_actions own_read) "read" = true ∧
   p_effect own_read = ALLOW) ∧
  allowed (evaluateRBAC subject "read" "Article" context own_document) = false ∧
  denied (evaluateRBAC subject "read" "Article" context own_document) = true.
Proof.
  cbv zeta.
  assert (Hrole : roles own_document !! "VIEWER" = Some {| permissions := [own_read] |})
    by run_eq.
  split; [split_and!; done|].
  destruct (evaluateRBAC_scope {| s_type := "role"; s_id := "VIEWER" |} "read" "Article"
              (request_context None (Some 7)) own_document
              {| permissions := [own_read] |} own_read
              eq_refl Hrole eq_refl eq_refl eq_refl) as (Hscope & _).
  destruct (Hscope (or_introl eq_refl)) as (_ & Habsent).
  apply Habsent. intros (ws & Hws & _). discriminate Hws.
Defined.

Lemma evaluateABAC_deny_first_witness :
  let subject := {| s_type := "role"; s_id := "VIEWER" |} in
  let context := request_context None (Some 7) in
  matching 1000 subject "delete" "Article" context allow_then_deny
    = [allow_delete_rule; deny_delete_rule] ∧
  denied (evaluateABAC 1000 subject "delete" "Article" context allow_then_deny) = true ∧
  matchedRuleId (evaluateABAC 1000 subject "delete" "Article" context allow_then_deny)
    = Some "deny-delete".
Proof.
  cbv zeta.
  assert (Hm : matching 1000 {| s_type := "role"; s_id := "VIEWER" |} "delete" "Article"
                 (request_context None (Some 7)) allow_then_deny
               = [allow_delete_rule; deny_delete_rule]) by run_eq.
  split; [done|].
  destruct (evaluateABAC_deny_first 1000 {| s_type := "role"; s_id := "VIEWER" |}
              "delete" "Article" (request_context None (Some 7)) allow_then_deny)
    as (_ & _ & _ & _ & Hpair & _).
  destruct (Hpair deny_delete_rule allow_delete_rule eq_refl eq_refl (or_intror Hm))
    as (_ & Hd & Hid).
  done.
Defined.




Lemma evaluate_result_terminal_witness :
  reachable after_first ∧
  second_run = (Ok default_denial, after_first,
                [EvRedisGet "policy:eval:acme:role:EDITOR:read:Article:global"]) ∧
  ((allowed default_denial = true ∧ denied default_denial = false) ∨
   (allowed default_denial = false ∧ denied default_denial = true)).
Proof.
  assert (Hreach : reachable after_first).
  { apply (reachable_step bare_world); [by apply reachable_start|].
    apply (step_evaluate no_fault (RoleName "EDITOR") "read" "Article"
             (request_context None (Some 2)) bare_world
             (fst (fst first_run)) after_first (snd first_run)).
    exact (run_eta first_run). }
  assert (Hrun : second_run =
            (Ok default_denial, after_first,
             [EvRedisGet "policy:eval:acme:role:EDITOR:read:Article:global"]))
    by run_eq.
  split_and!; [done..|].
  exact (evaluate_result_terminal no_fault (RoleName "EDITOR") "read" "Article"
           (request_context None (Some 2)) after_first default_denial after_first _
           Hreach Hrun).
Defined.

Lemma evaluate_audits_computed_denials_witness :
  let subject := {| s_type := "role"; s_id := "EDITOR" |} in
  let context := request_context None (Some 2) in
  let record := deny_record subject "read" "Article" context default_denial in
  (first_run = (Ok default_denial, after_first, snd first_run) ∧
   redis bare_world !! getEvalCacheKey subject "read" "Article" context = None ∧
   denied default_denial = true) ∧
  audit_writes (snd first_run) = [record] ∧
  is_deny_audit record = true ∧
  auditTrail after_first = auditTrail bare_world ++ [record].
Proof.
  cbv zeta.
  assert (Hrun : first_run = (Ok default_denial, after_first, snd first_run)) by run_eq.
  assert (Hmiss : redis bare_world !! getEvalCacheKey {| s_type := "role"; s_id := "EDITOR" |}
                    "read" "Article" (request_context None (Some 2)) = None) by run_eq.
  split; [done|].
  destruct (evaluate_audits_computed_denials no_fault (RoleName "EDITOR") "read" "Article"
              (request_context None (Some 2)) bare_world default_denial after_first
              (snd first_run) Hrun) as (Hmissed & _).
  exact (Hmissed Hmiss eq_refl).
Defined.

(** C5, as stated, fails on a cache hit: the second call for the
    unconfigured tenant returns the cached denial and writes no audit
    record; the trail still holds the single record of the first call. *)
Lemma cached_denial_is_not_audited :
  second_run = (Ok default_denial, after_first,
                [EvRedisGet "policy:eval:acme:role:EDITOR:read:Article:global"]) ∧
  denied default_denial = true ∧
  audit_writes (snd second_run) = [] ∧
  auditTrail (snd (fst second_run)) = auditTrail after_first ∧
  length (auditTrail after_first) = 1%nat.
Proof. split_and!; run_eq. Qed.



Lemma updatePolicyDocument_effects_witness :
  (no_fault DbFind "acme" = false ∧ tenants bare_world !! "acme" = None) ∧
  updatePolicyDocument no_fault "acme" editor_document 1 bare_world =
    (Throw TenantNotFound, bare_world, [EvDbFind "acme"]).
Proof.
  assert (Habsent : tenants bare_world !! "acme" = None) by run_eq.
  split; [done|].
  destruct (updatePolicyDocument_effects no_fault "acme" editor_document 1 bare_world
              eq_refl) as (Hmissing & _).
  exact (Hmissing Habsent).
Defined.

Lemma evaluate_cache_failure_propagates_witness :
  only_fails RedisGet editor_key RedisGet
    (getEvalCacheKey (normalize (RoleName "EDITOR")) "read" "Article"
       (request_context None (Some 2))) = true ∧
  evaluate (only_fails RedisGet editor_key) (RoleName "EDITOR") "read" "Article"
    (request_context None (Some 2)) bare_world =
    (Throw (IOFailure RedisGet), bare_world, []).
Proof.
  split; [done|].
  destruct (evaluate_cache_failure_propagates (only_fails RedisGet editor_key)
              (RoleName "EDITOR") "read" "Article" (request_context None (Some 2))
              bare_world)
    as (Hread & _).
  exact (Hread eq_refl).
Defined.

(** C8, as stated, fails: with only the evaluation-cache read failing
    [evaluate] throws the failure instead of returning a result; with only
    the evaluation-cache write failing it throws as well, after both
    evaluators have run, and the denial it had computed is not audited. *)
Lemma cache_failure_fails_evaluate :
  evaluate (only_fails RedisGet editor_key) (RoleName "EDITOR") "read" "Article"
    (request_context None (Some 2)) editor_world =
    (Throw (IOFailure RedisGet), editor_world, []) ∧
  fst (fst write_failed_run) = Throw (IOFailure RedisSet) ∧
  evaluations (snd write_failed_run) =
    [EvRBAC {| allowed := false; denied := false;
               reason := "Role EDITOR not found in policy"; matchedRuleId := None |};
     EvABAC {| allowed := false; denied := false;
               reason := "No ABAC rules matched"; matchedRuleId := None |}] ∧
  audit_writes (snd write_failed_run) = [] ∧
  auditTrail (snd (fst write_failed_run)) = [].
Proof. split_and!; run_eq. Qed.

Lemma eval_cache_key_ignores_user_witness :
  let c1 := request_context None (Some 1) in
  let c2 := request_context None (Some 2) in
  (tenantId c1 = tenantId c2 ∧ workspace_scope c1 = workspace_scope c2 ∧
   userId c1 ≠ userId c2 ∧
   user1_run = (Ok (verdict_of editor_rule), after_user1, snd user1_run)) ∧
  user2_run =
    (Ok (verdict_of editor_rule), after_user1,
     [EvRedisGet (getEvalCacheKey {| s_type := "role"; s_id := "EDITOR" |}
                    "read" "Article" c1)]) ∧
  no_opinion (evaluateABAC (clock after_user1) {| s_type := "role"; s_id := "EDITOR" |}
                "read" "Article" c2 editor_document).
Proof.
  cbv zeta.
  assert (Hrun : user1_run = (Ok (verdict_of editor_rule), after_user1, snd user1_run))
    by run_eq.
  split; [split_and!; [done | done | discriminate | done]|].
  destruct (eval_cache_key_ignores_user (RoleName "EDITOR") "read" "Article"
              (request_context None (Some 1)) (request_context None (Some 2))
              eq_refl eq_refl) as (_ & Hreplay).
  split; [exact (Hreplay no_fault editor_world _ _ _ Hrun) | split; run_eq].
Defined.

(** * Further properties of the service *)

(** ** The RBAC evaluator *)

(** X1. The RBAC evaluator returns, and abstains with both flags false,
    for a subject that is not a role, for a role the document does not list
    and whose id names no member the role map inherits, for a role with no
    permission on the resource, and for an action the role's permission on
    the resource does not list, whatever the effect of that permission. *)
Theorem evaluateRBAC_abstains subject action resource context policyDoc w :
  s_type subject ≠ "role" ∨
  (roles policyDoc !! s_id subject = None ∧ inherited_member (s_id subject) = false) ∨
  (∃ rp, roles policyDoc !! s_id subject = Some rp ∧
         find (λ p, p_resource p =? resource) (permissions rp) = None) ∨
  (∃ rp p, roles policyDoc !! s_id subject = Some rp ∧
           find (λ p, p_resource p =? resource) (permissions rp) = Some p ∧
           includes_str (p_actions p) action = false) →
  call_evaluateRBAC subject action resource context policyDoc w =
    (Ok (evaluateRBAC subject action resource context policyDoc), w, []) ∧
  allowed (evaluateRBAC subject action resource context policyDoc) = false ∧
  denied (evaluateRBAC subject action resource context policyDoc) = false.
Proof.
  intros Hcase. unfold call_evaluateRBAC, evaluateRBAC_throws, evaluateRBAC.
  destruct (s_type subject =? "role") eqn:Hty; simpl; [|done].
  apply String.eqb_eq in Hty.
  destruct Hcase as [Hno | [[-> ->] | [(rp & -> & ->) | (rp & p & -> & -> & ->)]]]; done.
Qed.

Lemma evaluateRBAC_abstains_witness :
  (roles DEFAULT_POLICY !! s_id editor = None ∧ inherited_member (s_id editor) = false) ∧
  call_evaluateRBAC editor "read" "Article" (request_context None None)
    DEFAULT_POLICY bare_world =
    (Ok {| allowed := false; denied := false;
           reason := "Role EDITOR not found in policy"; matchedRuleId := None |},
     bare_world, []).
Proof.
  assert (Hcase : roles DEFAULT_POLICY !! s_id editor = None ∧
                  inherited_member (s_id editor) = false) by (split; run_eq).
  split; [done|].
  exact (proj1 (evaluateRBAC_abstains editor "read" "Article" (request_context None None)
                  DEFAULT_POLICY bare_world (or_intror (or_introl Hcase)))).
Defined.

(** X2. The RBAC evaluator reads one thing of the context, whether
    [workspaceId] is present: two contexts that agree on that get the same
    result, reason included, whatever their tenant, user and other fields.
    In particular scope ['own'] compares no user id. *)
Theorem evaluateRBAC_reads_workspace_presence subject action resource c1 c2 policyDoc :
  (workspace_present c1 ↔ workspace_present c2) →
  evaluateRBAC subject action resource c1 policyDoc =
  evaluateRBAC subject action resource c2 policyDoc.
Proof.
  intros Hsame.
  assert (Htruthy : truthy (workspaceId c1) = truthy (workspaceId c2)).
  { destruct (truthy (workspaceId c2)) eqn:H2.
    - apply truthy_workspace_present, Hsame, truthy_workspace_present, H2.
    - apply truthy_workspace_absent. intros H1%Hsame.
      by apply truthy_workspace_absent in H2. }
  unfold evaluateRBAC. by rewrite Htruthy.
Qed.

Lemma evaluateRBAC_reads_workspace_presence_witness :
  let c1 := request_context (Some "ws-1") (Some 1) in
  let c2 := {| tenantId := "other"; workspaceId := Some "ws-2"; userId := Some 2;
               requestId := "req-2"; ip := "10.0.0.2"; ua := "firefox";
               deviceId := "dev-2"; geo := Some "NL" |} in
  (workspace_present c1 ↔ workspace_present c2) ∧
  evaluateRBAC viewer "read" "Article" c1 own_document =
  evaluateRBAC viewer "read" "Article" c2 own_document.
Proof.
  cbv zeta.
  assert (Hsame : workspace_present (request_context (Some "ws-1") (Some 1)) ↔
                  workspace_present
                    {| tenantId := "other"; workspaceId := Some "ws-2"; userId := Some 2;
                       requestId := "req-2"; ip := "10.0.0.2"; ua := "firefox";
                       deviceId := "dev-2"; geo := Some "NL" |}).
  { split; intros _; eexists; (split; [reflexivity | discriminate]). }
  split; [done|].
  exact (evaluateRBAC_reads_workspace_presence viewer "read" "Article" _ _
           own_document Hsame).
Defined.

Lemma find_first_match {A} (f : A → bool) before x after :
  Forall (λ y, f y = false) before → f x = true →
  find f (before ++ x :: after) = Some x.
Proof.
  intros Hbefore Hx. induction Hbefore as [|y before Hy _ IH]; simpl.
  - by rewrite Hx.
  - by rewrite Hy.
Qed.

(** X3. Of a role's permissions the first one for the resource decides:
    entries for other resources before it and every entry after it, also a
    later one for the same resource, change nothing. *)
Theorem evaluateRBAC_first_permission subject action resource context policyDoc
    before p after :
  Forall (λ q, p_resource q ≠ resource) before →
  p_resource p = resource →
  evaluateRBAC subject action resource context
    (with_role_permissions (s_id subject) (before ++ p :: after) policyDoc) =
  evaluateRBAC subject action resource context
    (with_role_permissions (s_id subject) [p] policyDoc).
Proof.
  intros Hbefore Hp. unfold evaluateRBAC.
  destruct (negb (s_type subject =? "role")); [done|].
  cbn [roles with_role_permissions]. rewrite !lookup_insert_eq.
  cbn [permissions].
  rewrite (find_first_match _ before p after).
  - simpl. apply String.eqb_eq in Hp. by rewrite Hp.
  - eapply Forall_impl; [exact Hbefore|]. intros q Hq. by apply String.eqb_neq.
  - by apply String.eqb_eq.
Qed.

Lemma evaluateRBAC_first_permission_witness :
  (Forall (λ q, p_resource q ≠ "Article") [] ∧ p_resource own_read = "Article") ∧
  evaluateRBAC viewer "read" "Article" (request_context (Some "ws-1") None)
    (with_role_permissions "VIEWER" [own_read; shadowed_read] own_document) =
  evaluateRBAC viewer "read" "Article" (request_context (Some "ws-1") None)
    (with_role_permissions "VIEWER" [own_read] own_document) ∧
  allowed (evaluateRBAC viewer "read" "Article" (request_context (Some "ws-1") None)
             (with_role_permissions "VIEWER" [own_read; shadowed_read] own_document))
    = true.
Proof.
  split; [split; [constructor | reflexivity]|].
  split; [|run_eq].
  exact (evaluateRBAC_first_permission viewer "read" "Article"
           (request_context (Some "ws-1") None) own_document [] own_read
           [shadowed_read] (List.Forall_nil _) eq_refl).
Defined.

(** X23. Neither evaluator ever returns a result with both flags set. *)
Theorem evaluators_never_allow_and_deny now subject action resource context policyDoc :
  ¬ (allowed (evaluateRBAC subject action resource context policyDoc) = true ∧
     denied (evaluateRBAC subject action resource context policyDoc) = true) ∧
  ¬ (allowed (evaluateABAC now subject action resource context policyDoc) = true ∧
     denied (evaluateABAC now subject action resource context policyDoc) = true).
Proof.
  pose proof (evaluateRBAC_flags subject action resource context policyDoc) as Hr.
  pose proof (evaluateABAC_flags now subject action resource context policyDoc) as Ha.
  cbv zeta in Hr, Ha.
  split; intros [H1 H2]; [rewrite H1, H2 in Hr | rewrite H1, H2 in Ha]; done.
Qed.

(** ** The ABAC evaluator *)

Lemma evaluateABAC_by_matching now subject action resource context d1 d2 :
  matching now subject action resource context d1 =
  matching now subject action resource context d2 →
  evaluateABAC now subject action resource context d1 =
  evaluateABAC now subject action resource context d2.
Proof. intros Hm. by rewrite !evaluateABAC_first, Hm. Qed.

Lemma in_matching now subject action resource context policyDoc rule :
  In rule (matching now subject action resource context policyDoc) ↔
  matches_in now subject action resource context policyDoc rule.
Proof. apply List.filter_In. Qed.

Lemma evaluateABAC_denied_iff now subject action resource context policyDoc :
  denied (evaluateABAC now subject action resource context policyDoc) = true ↔
  ∃ rule, matches_in now subject action resource context policyDoc rule ∧
          r_effect rule = DENY.
Proof.
  rewrite evaluateABAC_first.
  set (m := matching now subject action resource context policyDoc).
  pose proof (filter_is_deny m) as Hdeny.
  pose proof (filter_is_allow m) as Hallow.
  destruct (List.filter is_deny m) as [|d ds] eqn:Hd.
  - split.
    + destruct (List.filter is_allow m) as [|al als]; [done|].
      apply Forall_cons_1 in Hallow as [Heff _].
      simpl. unfold verdict_of. by rewrite Heff.
    + intros (rule & Hin%in_matching & Heff).
      assert (Hmem : In rule (List.filter is_deny m)).
      { apply List.filter_In. split; [done|]. unfold is_deny. by rewrite Heff. }
      by rewrite Hd in Hmem.
  - apply Forall_cons_1 in Hdeny as [Heff _].
    simpl. unfold verdict_of. rewrite Heff. split; [|done]. intros _.
    exists d. split; [|done]. apply in_matching.
    assert (Hmem : In d (List.filter is_deny m)) by (rewrite Hd; by left).
    by apply List.filter_In in Hmem as [? _].
Qed.

Lemma evaluateABAC_allowed_iff now subject action resource context policyDoc :
  allowed (evaluateABAC now subject action resource context policyDoc) = true ↔
  (∃ rule, matches_in now subject action resource context policyDoc rule ∧
           r_effect rule = ALLOW) ∧
  ¬ (∃ rule, matches_in now subject action resource context policyDoc rule ∧
             r_effect rule = DENY).
Proof.
  rewrite <- evaluateABAC_denied_iff. rewrite evaluateABAC_first.
  set (m := matching now subject action resource context policyDoc).
  pose proof (filter_is_deny m) as Hdeny.
  pose proof (filter_is_allow m) as Hallow.
  destruct (List.filter is_deny m) as [|d ds] eqn:Hd.
  - destruct (List.filter is_allow m) as [|al als] eqn:Hal.
    + simpl. split; [done|]. intros [(rule & Hin%in_matching & Heff) _].
      assert (Hmem : In rule (List.filter is_allow m)).
      { apply List.filter_In. split; [done|]. unfold is_allow. by rewrite Heff. }
      by rewrite Hal in Hmem.
    + apply Forall_cons_1 in Hallow as [Heff _].
      simpl. unfold verdict_of. rewrite Heff. simpl. split; [|done]. intros _.
      split; [|done]. exists al. split; [|done]. apply in_matching.
      assert (Hmem : In al (List.filter is_allow m)) by (rewrite Hal; by left).
      by apply List.filter_In in Hmem as [? _].
  - apply Forall_cons_1 in Hdeny as [Heff _].
    simpl. unfold verdict_of. rewrite Heff. simpl. split; [done|]. by intros [_ []].
Qed.

Lemma evaluateABAC_matched now subject action resource context policyDoc i :
  matchedRuleId (evaluateABAC now subject action resource context policyDoc) = Some i →
  ∃ rule, matches_in now subject action resource context policyDoc rule ∧
          r_id rule = i ∧
          evaluateABAC now subject action resource context policyDoc = verdict_of rule.
Proof.
  rewrite evaluateABAC_first.
  set (m := matching now subject action resource context policyDoc).
  destruct (List.filter is_deny m ++ List.filter is_allow m) as [|rule rest] eqn:Hsorted;
    [done|].
  intros Hid. exists rule.
  assert (Hmem : In rule (List.filter is_deny m ++ List.filter is_allow m))
    by (rewrite Hsorted; by left).
  apply in_app_or in Hmem.
  split_and!.
  - apply in_matching. by destruct Hmem as [[? _]%List.filter_In | [? _]%List.filter_In].
  - unfold verdict_of in Hid. by destruct (r_effect rule); simplify_eq/=.
  - done.
Qed.

(** X4. The ABAC evaluator answers for the rules of the document itself:
    it denies exactly when some rule of the document that matches the
    request has effect deny; it allows exactly when some matching rule has
    effect allow and no matching rule has effect deny; it abstains exactly
    when no rule matches; and a [matchedRuleId] it reports is the id of a
    matching rule whose effect is the decision. *)
Theorem evaluateABAC_answers_for_rules now subject action resource context policyDoc :
  let r := evaluateABAC now subject action resource context policyDoc in
  let matches := matches_in now subject action resource context policyDoc in
  (denied r = true ↔ ∃ rule, matches rule ∧ r_effect rule = DENY) ∧
  (allowed r = true ↔
     (∃ rule, matches rule ∧ r_effect rule = ALLOW) ∧
     ¬ (∃ rule, matches rule ∧ r_effect rule = DENY)) ∧
  (allowed r = false ∧ denied r = false ↔ ¬ ∃ rule, matches rule) ∧
  (∀ i, matchedRuleId r = Some i →
     ∃ rule, matches rule ∧ r_id rule = i ∧
             allowed r = is_allow rule ∧ denied r = is_deny rule).
Proof.
  cbv zeta. split_and!.
  - apply evaluateABAC_denied_iff.
  - apply evaluateABAC_allowed_iff.
  - pose proof (evaluateABAC_denied_iff now subject action resource context policyDoc)
      as Hd.
    pose proof (evaluateABAC_allowed_iff now subject action resource context policyDoc)
      as Ha.
    split.
    + intros [Hna Hnd] (rule & Hrule).
      destruct (r_effect rule) eqn:Heff.
      * assert (allowed (evaluateABAC now subject action resource context policyDoc)
                = true); [|congruence].
        apply Ha. split; [eauto|]. intros Hex. apply Hd in Hex. congruence.
      * assert (denied (evaluateABAC now subject action resource context policyDoc)
                = true); [|congruence].
        apply Hd. eauto.
    + intros Hnone. split.
      * apply not_true_is_false. intros [(rule & ? & _) _]%Ha. eauto.
      * apply not_true_is_false. intros (rule & ? & _)%Hd. eauto.
  - intros i (rule & Hrule & Hid & ->)%evaluateABAC_matched.
    exists rule. unfold verdict_of, is_allow, is_deny.
    by destruct (r_effect rule).
Qed.

Lemma evaluateABAC_answers_for_rules_witness :
  matches_in 1000 viewer "delete" "Article" (request_context None (Some 7))
    allow_then_deny deny_delete_rule ∧
  r_effect deny_delete_rule = DENY ∧
  denied (evaluateABAC 1000 viewer "delete" "Article" (request_context None (Some 7))
            allow_then_deny) = true.
Proof.
  assert (Hm : matches_in 1000 viewer "delete" "Article" (request_context None (Some 7))
                 allow_then_deny deny_delete_rule).
  { split; [right; by left | run_eq]. }
  split_and!; [done..|].
  destruct (evaluateABAC_answers_for_rules 1000 viewer "delete" "Article"
              (request_context None (Some 7)) allow_then_deny) as (Hdenied & _).
  apply Hdenied. exists deny_delete_rule. done.
Defined.

Lemma filter_map_commute {A B} (f : B → bool) (f' : A → bool) (g : A → B) l :
  (∀ x, f (g x) = f' x) →
  List.filter f (map g l) = map g (List.filter f' l).
Proof.
  intros Hf. induction l as [|x l IH]; [done|].
  simpl. rewrite Hf. destruct (f' x); simpl; by rewrite IH.
Qed.

(** X5. The [priority] of a rule is never read: the document with any
    other priorities gets the same ABAC result. *)
Theorem evaluateABAC_ignores_priority now subject action resource context policyDoc f :
  evaluateABAC now subject action resource context
    (with_rules (map (set_priority f) (rules policyDoc)) policyDoc) =
  evaluateABAC now subject action resource context policyDoc.
Proof.
  rewrite !evaluateABAC_first.
  assert (Hm : matching now subject action resource context
                 (with_rules (map (set_priority f) (rules policyDoc)) policyDoc) =
               map (set_priority f)
                 (matching now subject action resource context policyDoc)).
  { unfold matching. cbn [rules with_rules]. by apply filter_map_commute. }
  rewrite Hm.
  rewrite (filter_map_commute is_deny is_deny), (filter_map_commute is_allow is_allow),
    <- map_app by done.
  destruct (_ ++ _) as [|rule rest]; done.
Qed.

(** X6. Rules that do not match the request are as good as absent: taking
    them out of the document, wherever they stand, leaves the ABAC result
    as it is. *)
Theorem evaluateABAC_skips_other_rules now subject action resource context policyDoc
    rs1 others rs2 :
  Forall (λ rule, rule_matches now subject action resource context rule = false) others →
  evaluateABAC now subject action resource context
    (with_rules (rs1 ++ others ++ rs2) policyDoc) =
  evaluateABAC now subject action resource context
    (with_rules (rs1 ++ rs2) policyDoc).
Proof.
  intros Hothers. apply evaluateABAC_by_matching.
  unfold matching. cbn [rules with_rules]. rewrite !List.filter_app.
  assert (Hnone : List.filter (rule_matches now subject action resource context) others
                  = []).
  { induction Hothers as [|rule others Hrule _ IH]; [done|]. simpl. by rewrite Hrule. }
  by rewrite Hnone.
Qed.

Lemma evaluateABAC_skips_other_rules_witness :
  Forall (λ rule, rule_matches 1000 viewer "delete" "Article"
                    (request_context None (Some 7)) rule = false) [editor_rule] ∧
  evaluateABAC 1000 viewer "delete" "Article" (request_context None (Some 7))
    (with_rules ([allow_delete_rule] ++ [editor_rule] ++ [deny_delete_rule])
       allow_then_deny) =
  evaluateABAC 1000 viewer "delete" "Article" (request_context None (Some 7))
    (with_rules ([allow_delete_rule] ++ [deny_delete_rule]) allow_then_deny).
Proof.
  assert (Hothers : Forall (λ rule, rule_matches 1000 viewer "delete" "Article"
                              (request_context None (Some 7)) rule = false)
                      [editor_rule]).
  { constructor; [run_eq | constructor]. }
  split; [done|].
  exact (evaluateABAC_skips_other_rules 1000 viewer "delete" "Article"
           (request_context None (Some 7)) allow_then_deny
           [allow_delete_rule] [editor_rule] [deny_delete_rule] Hothers).
Defined.

(** X7. A deny cannot be lifted by adding rules: when the ABAC evaluator
    denies on a document, it denies on every document that holds all of its
    rules, in whatever order and with whatever rules besides. *)
Theorem evaluateABAC_deny_survives_more_rules now subject action resource context d1 d2 :
  incl (rules d1) (rules d2) →
  denied (evaluateABAC now subject action resource context d1) = true →
  denied (evaluateABAC now subject action resource context d2) = true ∧
  allowed (evaluateABAC now subject action resource context d2) = false.
Proof.
  intros Hincl (rule & [Hin Hm] & Heff)%evaluateABAC_denied_iff.
  assert (Hd2 : denied (evaluateABAC now subject action resource context d2) = true).
  { apply evaluateABAC_denied_iff. exists rule. split; [split|]; auto. }
  split; [done|].
  pose proof (evaluateABAC_flags now subject action resource context d2) as Hflags.
  cbv zeta in Hflags. rewrite Hd2 in Hflags. by destruct (allowed _).
Qed.

Lemma evaluateABAC_deny_survives_more_rules_witness :
  let d1 := with_rules [deny_delete_rule] allow_then_deny in
  (incl (rules d1) (rules allow_then_deny) ∧
   denied (evaluateABAC 1000 viewer "delete" "Article" (request_context None (Some 7)) d1)
     = true) ∧
  denied (evaluateABAC 1000 viewer "delete" "Article" (request_context None (Some 7))
            allow_then_deny) = true ∧
  allowed (evaluateABAC 1000 viewer "delete" "Article" (request_context None (Some 7))
             allow_then_deny) = false.
Proof.
  cbv zeta.
  assert (Hincl : incl (rules (with_rules [deny_delete_rule] allow_then_deny))
                    (rules allow_then_deny)).
  { intros rule [<- | []]. right. by left. }
  assert (Hdeny : denied (evaluateABAC 1000 viewer "delete" "Article"
                            (request_context None (Some 7))
                            (with_rules [deny_delete_rule] allow_then_deny)) = true)
    by run_eq.
  split; [done|].
  exact (evaluateABAC_deny_survives_more_rules 1000 viewer "delete" "Article"
           (request_context None (Some 7)) _ allow_then_deny Hincl Hdeny).
Defined.

(** X8. Conditions that are there but empty ask for nothing: a rule whose
    [conditions] hold an absent or empty tenant id, an absent or empty
    workspace id, an absent or empty user list and an absent or unbounded
    time window matches exactly the requests the rule without [conditions]
    matches. *)
Theorem rule_matches_vacuous_conditions now subject action resource context rule c :
  vacuous c →
  rule_matches now subject action resource context (set_conditions (Some c) rule) =
  rule_matches now subject action resource context (set_conditions None rule).
Proof.
  intros (Ht & Hw & Hu & Htime).
  unfold rule_matches. cbn [set_conditions r_action r_resource r_subject r_conditions].
  assert (Hhold : conditions_hold now context c = true).
  { unfold conditions_hold. rewrite Ht, Hw. simpl.
    destruct Hu as [-> | ->], Htime as [-> | ->]; done. }
  by rewrite Hhold.
Qed.

Lemma rule_matches_vacuous_conditions_witness :
  let c := {| c_tenantId := Some ""; c_workspaceId := None; c_userIds := Some [];
              c_time := Some {| t_start := None; t_end := None |} |} in
  vacuous c ∧
  rule_matches 1000 viewer "delete" "Article" (request_context None None)
    (set_conditions (Some c) allow_delete_rule) =
  rule_matches 1000 viewer "delete" "Article" (request_context None None)
    (set_conditions None allow_delete_rule).
Proof.
  cbv zeta.
  assert (Hv : vacuous {| c_tenantId := Some ""; c_workspaceId := None;
                          c_userIds := Some [];
                          c_time := Some {| t_start := None; t_end := None |} |}).
  { split_and!; [done | done | by right | by right]. }
  split; [done|].
  exact (rule_matches_vacuous_conditions 1000 viewer "delete" "Article"
           (request_context None None) allow_delete_rule _ Hv).
Defined.

(** X9. The time window of a rule is closed at both ends: with a start and
    an end the condition holds exactly from the start instant to the end
    instant, both included; a missing bound leaves that side open. *)
Theorem conditions_time_window_inclusive now context tw :
  conditions_hold now context (time_only tw) = true ↔
  (∀ s, t_start tw = Some s → (s ≤ now)%Z) ∧
  (∀ e, t_end tw = Some e → (now ≤ e)%Z).
Proof.
  unfold conditions_hold, time_only. simpl.
  destruct tw as [[s|] [e|]]; simpl.
  - destruct (Z.ltb_spec now s), (Z.ltb_spec e now); split; try done.
    + intros [Hs _]. specialize (Hs s eq_refl). lia.
    + intros [Hs _]. specialize (Hs s eq_refl). lia.
    + intros [_ He]. specialize (He e eq_refl). lia.
    + intros _. split; intros ? [= <-]; lia.
  - destruct (Z.ltb_spec now s); split; try done.
    + intros [Hs _]. specialize (Hs s eq_refl). lia.
    + intros _. split; [intros ? [= <-]; lia | done].
  - destruct (Z.ltb_spec e now); split; try done.
    + intros [_ He]. specialize (He e eq_refl). lia.
    + intros _. split; [done | intros ? [= <-]; lia].
  - split; done.
Qed.

(** X10. A rule that names users or a workspace does not apply to a request
    that lacks the attribute: with a non-empty [userIds] and no
    [context.userId], or with a [workspaceId] condition and no
    [context.workspaceId], the conditions fail, for a deny rule as for an
    allow rule. *)
Theorem conditions_fail_without_attribute now context c :
  (∃ u ids, c_userIds c = Some (u :: ids) ∧ userId context = None) ∨
  (truthy (c_workspaceId c) = true ∧ workspaceId context = None) →
  conditions_hold now context c = false.
Proof.
  intros Hcase. unfold conditions_hold.
  destruct (truthy (c_tenantId c) && _); [done|].
  destruct Hcase as [(u & ids & Hids & Huser) | [Hws Hctx]].
  - destruct (truthy (c_workspaceId c) && _); [done|].
    by rewrite Hids, Huser.
  - rewrite Hws, Hctx. by destruct (c_workspaceId c).
Qed.

Lemma conditions_fail_without_attribute_witness :
  (∃ u ids, c_userIds (default (time_only office_hours) (r_conditions editor_rule))
              = Some (u :: ids) ∧
            userId (request_context None None) = None) ∧
  conditions_hold 1000 (request_context None None)
    (default (time_only office_hours) (r_conditions editor_rule)) = false.
Proof.
  assert (Hcase : ∃ u ids,
            c_userIds (default (time_only office_hours) (r_conditions editor_rule))
              = Some (u :: ids) ∧
            userId (request_context None None) = None).
  { exists 1%Z, []. done. }
  split; [done|].
  apply (conditions_fail_without_attribute 1000 (request_context None None)).
  left. exact Hcase.
Defined.

(** ** The evaluation-cache key *)

Lemma append_cons (a : ascii) (s t : string) : String a s +:+ t = String a (s +:+ t).
Proof. reflexivity. Qed.

Lemma append_nil (t : string) : "" +:+ t = t.
Proof. reflexivity. Qed.

Lemma append_assoc_string (a b c : string) : (a +:+ b) +:+ c = a +:+ (b +:+ c).
Proof.
  induction a as [|x a IH]; [done|].
  rewrite !append_cons. f_equal. apply IH.
Qed.

Lemma append_cancel_l (p x y : string) : p +:+ x = p +:+ y → x = y.
Proof.
  induction p as [|a p IH]; [done|].
  rewrite !append_cons. intros [= H]. auto.
Qed.

Lemma colon_split (a b x y : string) :
  colon_free a = true → colon_free b = true →
  a +:+ ":" +:+ x = b +:+ ":" +:+ y → a = b ∧ x = y.
Proof.
  revert b. induction a as [|c a IH]; intros [|c' b] Ha Hb;
    rewrite ?append_cons, ?append_nil; cbn [colon_free] in *.
  - by intros [= ->].
  - intros [= <- _]. done.
  - intros [= -> _]. done.
  - intros [= <- Heq].
    apply andb_prop in Ha as [_ Ha]. apply andb_prop in Hb as [_ Hb].
    destruct (IH b Ha Hb Heq) as [-> ->]. done.
Qed.

(** X11. For requests whose tenant id, subject type and id, action and
    resource hold no colon, the evaluation-cache key tells the requests
    apart: equal keys come from the same tenant, subject, action, resource
    and workspace scope. *)
Theorem getEvalCacheKey_injective s1 a1 r1 c1 s2 a2 r2 c2 :
  colon_free (tenantId c1) = true → colon_free (tenantId c2) = true →
  colon_free (s_type s1) = true → colon_free (s_type s2) = true →
  colon_free (s_id s1) = true → colon_free (s_id s2) = true →
  colon_free a1 = true → colon_free a2 = true →
  colon_free r1 = true → colon_free r2 = true →
  getEvalCacheKey s1 a1 r1 c1 = getEvalCacheKey s2 a2 r2 c2 →
  tenantId c1 = tenantId c2 ∧ s1 = s2 ∧ a1 = a2 ∧ r1 = r2 ∧
  workspace_scope c1 = workspace_scope c2.
Proof.
  intros Ht1 Ht2 Hy1 Hy2 Hi1 Hi2 Ha1 Ha2 Hr1 Hr2.
  rewrite !getEvalCacheKey_components.
  intros Hkey%append_cancel_l.
  apply colon_split in Hkey as [Htenant Hkey]; [|done..].
  rewrite !append_assoc_string in Hkey.
  apply colon_split in Hkey as [Htype Hkey]; [|done..].
  apply colon_split in Hkey as [Hid Hkey]; [|done..].
  apply colon_split in Hkey as [Haction Hkey]; [|done..].
  apply colon_split in Hkey as [Hresource Hscope]; [|done..].
  split_and!; try done.
  destruct s1, s2. simpl in *. by subst.
Qed.

Lemma getEvalCacheKey_injective_witness :
  (colon_free (tenantId (request_context None (Some 1))) = true ∧
   colon_free (s_type editor) = true ∧ colon_free (s_id editor) = true ∧
   colon_free "read" = true ∧ colon_free "Article" = true ∧
   getEvalCacheKey editor "read" "Article" (request_context None (Some 1)) =
   getEvalCacheKey editor "read" "Article" (request_context None (Some 2))) ∧
  workspace_scope (request_context None (Some 1)) =
  workspace_scope (request_context None (Some 2)).
Proof.
  split; [split_and!; reflexivity|].
  exact (proj2 (proj2 (proj2 (proj2
    (getEvalCacheKey_injective editor "read" "Article" (request_context None (Some 1))
       editor "read" "Article" (request_context None (Some 2))
       eq_refl eq_refl eq_refl eq_refl eq_refl eq_refl eq_refl eq_refl eq_refl eq_refl
       eq_refl))))).
Defined.

(** ** Policy documents and their cache *)

Lemma eval_key_is_no_doc_key subject action resource context tenant :
  getEvalCacheKey subject action resource context ≠ POLICY_CACHE_PREFIX +:+ tenant.
Proof.
  intros Heq.
  pose proof (eval_key_not_doc_key subject action resource context) as Hno.
  rewrite Heq, doc_key_is_doc_key in Hno. done.
Qed.

(** X12. A document [getPolicyDocument] returned from the cache or loaded
    from a row that passes the version check is served from the cache by
    the next call: the same document, one cache read, no store read, the
    world untouched. *)
Theorem getPolicyDocument_served_from_cache fault fault' tenant w d w1 t1 :
  getPolicyDocument fault tenant w = (Ok d, w1, t1) →
  redis w !! (POLICY_CACHE_PREFIX +:+ tenant) ≠ None ∨
  loadable (tenants w !! tenant) ≠ None →
  fault' RedisGet (POLICY_CACHE_PREFIX +:+ tenant) = false →
  getPolicyDocument fault' tenant w1 =
    (Ok d, w1, [EvRedisGet (POLICY_CACHE_PREFIX +:+ tenant)]).
Proof.
  rewrite !getPolicyDocument_run. cbv zeta. intros Hrun Hcase Hget. rewrite Hget.
  destruct (fault RedisGet _); [done|].
  destruct (redis w !! _) as [[cachedDoc|r]|] eqn:Hkey.
  - injection Hrun as <- <- <-. by rewrite Hkey.
  - done.
  - destruct Hcase as [? | Hload]; [done|].
    destruct (fault DbFind _); [done|].
    destruct (loadable _) as [policyDoc|]; [|done].
    destruct (fault RedisSet _); [done|].
    injection Hrun as <- <- <-. cbn [redis with_redis]. by rewrite lookup_insert_eq.
Qed.

Lemma getPolicyDocument_served_from_cache_witness :
  let first := getPolicyDocument no_fault "acme" editor_world in
  (first = (Ok editor_document, snd (fst first), snd first) ∧
   loadable (tenants editor_world !! "acme") ≠ None ∧
   no_fault RedisGet (POLICY_CACHE_PREFIX +:+ "acme") = false) ∧
  getPolicyDocument no_fault "acme" (snd (fst first)) =
    (Ok editor_document, snd (fst first), [EvRedisGet (POLICY_CACHE_PREFIX +:+ "acme")]).
Proof.
  cbv zeta.
  assert (Hrun : getPolicyDocument no_fault "acme" editor_world =
                   (Ok editor_document,
                    snd (fst (getPolicyDocument no_fault "acme" editor_world)),
                    snd (getPolicyDocument no_fault "acme" editor_world))) by run_eq.
  assert (Hload : loadable (tenants editor_world !! "acme") ≠ None)
    by (vm_compute; discriminate).
  split; [done|].
  exact (getPolicyDocument_served_from_cache no_fault no_fault "acme" editor_world
           editor_document _ _ Hrun (or_intror Hload) eq_refl).
Defined.

(** X13. A tenant whose configuration has no [policyEngine] section gets
    [DEFAULT_POLICY] too, but this default, unlike the one returned for an
    absent tenant, a missing configuration or another version, is written
    to the document cache with the document TTL. *)
Theorem getPolicyDocument_caches_default_for_missing_section fault tenant w row c :
  fault RedisGet (POLICY_CACHE_PREFIX +:+ tenant) = false →
  fault DbFind tenant = false →
  fault RedisSet (POLICY_CACHE_PREFIX +:+ tenant) = false →
  redis w !! (POLICY_CACHE_PREFIX +:+ tenant) = None →
  tenants w !! tenant = Some row →
  configuration row = Some c →
  policyEngine c = None →
  getPolicyDocument fault tenant w =
    (Ok DEFAULT_POLICY,
     with_redis <[POLICY_CACHE_PREFIX +:+ tenant := DocEntry DEFAULT_POLICY]> w,
     [EvRedisGet (POLICY_CACHE_PREFIX +:+ tenant); EvDbFind tenant;
      EvRedisSet (POLICY_CACHE_PREFIX +:+ tenant) (DocEntry DEFAULT_POLICY) CACHE_TTL]).
Proof.
  intros Hget Hfind Hset Hmiss Hrow Hc Hnone.
  rewrite getPolicyDocument_run. cbv zeta. rewrite Hget, Hmiss, Hfind, Hrow.
  destruct row as [c']. simpl in Hc. subst c'.
  unfold loadable. rewrite Hnone. simpl. by rewrite Hset.
Qed.

Lemma getPolicyDocument_caches_default_for_missing_section_witness :
  let row := {| configuration := Some {| policyEngine := None; otherSections := ∅ |} |} in
  let w := world_of {[ "acme" := row ]} in
  (redis w !! (POLICY_CACHE_PREFIX +:+ "acme") = None ∧
   tenants w !! "acme" = Some row) ∧
  getPolicyDocument no_fault "acme" w =
    (Ok DEFAULT_POLICY,
     with_redis <[POLICY_CACHE_PREFIX +:+ "acme" := DocEntry DEFAULT_POLICY]> w,
     [EvRedisGet (POLICY_CACHE_PREFIX +:+ "acme"); EvDbFind "acme";
      EvRedisSet (POLICY_CACHE_PREFIX +:+ "acme") (DocEntry DEFAULT_POLICY) CACHE_TTL]).
Proof.
  cbv zeta.
  assert (Hmiss : redis (world_of {[ "acme" :=
                    {| configuration := Some {| policyEngine := None;
                                                otherSections := ∅ |} |} ]})
                  !! (POLICY_CACHE_PREFIX +:+ "acme") = None) by run_eq.
  assert (Hrow : tenants (world_of {[ "acme" :=
                    {| configuration := Some {| policyEngine := None;
                                                otherSections := ∅ |} |} ]})
                  !! "acme" =
                 Some {| configuration := Some {| policyEngine := None;
                                                  otherSections := ∅ |} |}) by run_eq.
  split; [done|].
  exact (getPolicyDocument_caches_default_for_missing_section no_fault "acme" _ _ _
           eq_refl eq_refl eq_refl Hmiss Hrow eq_refl eq_refl).
Defined.

(** X14. Read your writes: after [updatePolicyDocument] returned, the next
    [getPolicyDocument] of the tenant reads the store; it returns the
    document just written, and caches it, when that document has version 1,
    and returns [DEFAULT_POLICY], caching nothing, when it has another
    version, although the store holds it. *)
Theorem updatePolicyDocument_then_get fault fault' tenant policy actor w w' tr :
  updatePolicyDocument fault tenant policy actor w = (Ok tt, w', tr) →
  fault' RedisGet (POLICY_CACHE_PREFIX +:+ tenant) = false →
  fault' DbFind tenant = false →
  fault' RedisSet (POLICY_CACHE_PREFIX +:+ tenant) = false →
  getPolicyDocument fault' tenant w' =
    if (version policy =? 1)%Z
    then (Ok policy,
          with_redis <[POLICY_CACHE_PREFIX +:+ tenant := DocEntry policy]> w',
          [EvRedisGet (POLICY_CACHE_PREFIX +:+ tenant); EvDbFind tenant;
           EvRedisSet (POLICY_CACHE_PREFIX +:+ tenant) (DocEntry policy) CACHE_TTL])
    else (Ok DEFAULT_POLICY, w',
          [EvRedisGet (POLICY_CACHE_PREFIX +:+ tenant); EvDbFind tenant]).
Proof.
  rewrite updatePolicyDocument_run. cbv zeta. intros Hrun Hget Hfind Hset.
  destruct (fault DbFind tenant); [done|].
  destruct (tenants w !! tenant) as [row|]; [|done].
  destruct (fault DbUpdate tenant); [done|].
  destruct (fault RedisDel _); [done|].
  destruct (fault AuditLog _); [done|].
  injection Hrun as <- <-.
  rewrite getPolicyDocument_run. cbv zeta. rewrite Hget, Hfind.
  cbn [redis tenants with_audit with_redis with_tenants].
  rewrite lookup_delete_eq, lookup_insert_eq.
  unfold loadable, updated_configuration.
  cbn [policyEngine configuration default from_option id].
  destruct (version policy =? 1)%Z; [|done]. by rewrite Hset.
Qed.

Lemma updatePolicyDocument_then_get_witness :
  let update := updatePolicyDocument no_fault "acme" viewer_document 1 editor_world in
  update = (Ok tt, snd (fst update), snd update) ∧
  fst (fst (getPolicyDocument no_fault "acme" (snd (fst update)))) = Ok viewer_document.
Proof.
  cbv zeta.
  assert (Hrun : updatePolicyDocument no_fault "acme" viewer_document 1 editor_world =
            (Ok tt,
             snd (fst (updatePolicyDocument no_fault "acme" viewer_document 1 editor_world)),
             snd (updatePolicyDocument no_fault "acme" viewer_document 1 editor_world)))
    by run_eq.
  split; [done|].
  by rewrite (updatePolicyDocument_then_get no_fault no_fault "acme" viewer_document 1
                editor_world _ _ Hrun eq_refl eq_refl eq_refl).
Defined.

(** X15. [updatePolicyDocument] leaves the evaluation cache as it is: every
    evaluation-cache entry is still there after the call, however the call
    ends, so a request whose decision is cached is answered with that
    decision after the update too, whatever the new document says. *)
Theorem updatePolicyDocument_keeps_cached_decisions fault tenant policy actor w o w' tr
    subject action resource context :
  updatePolicyDocument fault tenant policy actor w = (o, w', tr) →
  let key := getEvalCacheKey (normalize subject) action resource context in
  redis w' !! key = redis w !! key ∧
  ∀ fault' cached,
    redis w !! key = Some cached →
    fault' RedisGet key = false →
    evaluate fault' subject action resource context w' =
      (Ok (as_PolicyResult cached), w', [EvRedisGet key]).
Proof.
  intros Hrun. cbv zeta.
  assert (Hsame : redis w' !! getEvalCacheKey (normalize subject) action resource context
                  = redis w !! getEvalCacheKey (normalize subject) action resource context).
  { rewrite updatePolicyDocument_run in Hrun. cbv zeta in Hrun.
    repeat case_match; injection Hrun as <- <- <-; try done;
      cbn [redis with_audit with_redis with_tenants];
      by rewrite lookup_delete_ne by (apply not_eq_sym, eval_key_is_no_doc_key). }
  split; [done|].
  intros fault' cached Hcached Hget.
  rewrite evaluate_run. cbv zeta. by rewrite Hget, Hsame, Hcached.
Qed.

Lemma updatePolicyDocument_keeps_cached_decisions_witness :
  let update := updatePolicyDocument no_fault "acme" viewer_document 1 after_user1 in
  let key := getEvalCacheKey (normalize (RoleName "EDITOR")) "read" "Article"
               (request_context None (Some 1)) in
  (redis after_user1 !! key = Some (EvalEntry (verdict_of editor_rule)) ∧
   no_fault RedisGet key = false) ∧
  evaluate no_fault (RoleName "EDITOR") "read" "Article" (request_context None (Some 1))
    (snd (fst update)) =
    (Ok (verdict_of editor_rule), snd (fst update), [EvRedisGet key]).
Proof.
  cbv zeta.
  assert (Hcached : redis after_user1 !!
                      getEvalCacheKey (normalize (RoleName "EDITOR")) "read" "Article"
                        (request_context None (Some 1))
                    = Some (EvalEntry (verdict_of editor_rule))) by run_eq.
  split; [done|].
  destruct (updatePolicyDocument_keeps_cached_decisions no_fault "acme" viewer_document 1
              after_user1 _ _ _ (RoleName "EDITOR") "read" "Article"
              (request_context None (Some 1))
              (run_eta (updatePolicyDocument no_fault "acme" viewer_document 1 after_user1)))
    as (_ & Hserve).
  exact (Hserve no_fault _ Hcached eq_refl).
Defined.

(** X16. [updatePolicyDocument] touches the row and the cached document of
    its own tenant only: the clock, the rows of other tenants and every
    other cache key are as before however the call ends; a call that
    throws has written no audit record; and a call that fails at the
    lookup, finds no tenant, or fails at the store write leaves the world
    exactly as it was. *)
Theorem updatePolicyDocument_frame fault tenant policy actor w o w' tr :
  updatePolicyDocument fault tenant policy actor w = (o, w', tr) →
  clock w' = clock w ∧
  (∀ t', t' ≠ tenant → tenants w' !! t' = tenants w !! t') ∧
  (∀ k, k ≠ POLICY_CACHE_PREFIX +:+ tenant → redis w' !! k = redis w !! k) ∧
  (∀ e, o = Throw e → auditTrail w' = auditTrail w) ∧
  (fault DbFind tenant = true ∨ tenants w !! tenant = None ∨
   fault DbUpdate tenant = true → w' = w).
Proof.
  rewrite updatePolicyDocument_run. cbv zeta. intros Hrun.
  destruct (fault DbFind tenant) eqn:Hfind.
  { injection Hrun as <- <- <-. split_and!; done. }
  destruct (tenants w !! tenant) as [row|] eqn:Hrow.
  2: { injection Hrun as <- <- <-. split_and!; done. }
  destruct (fault DbUpdate tenant) eqn:Hupdate.
  { injection Hrun as <- <- <-. split_and!; done. }
  assert (Hstay : false = true ∨ Some row = None ∨ false = true → w' = w).
  { intros [? | [? | ?]]; done. }
  destruct (fault RedisDel (POLICY_CACHE_PREFIX +:+ tenant)) eqn:Hdel;
    [|destruct (fault AuditLog "owner.policy.update") eqn:Haudit];
    injection Hrun as <- <- <-;
    cbn [clock redis tenants auditTrail with_audit with_redis with_tenants];
    (split_and!;
     [ done
     | by intros t' Ht'; rewrite lookup_insert_ne
     | by intros k Hk; rewrite ?lookup_delete_ne
     | try done
     | done ]).
Qed.

Lemma updatePolicyDocument_frame_witness :
  let fault := only_fails DbUpdate "acme" in
  fault DbUpdate "acme" = true ∧
  snd (fst (updatePolicyDocument fault "acme" viewer_document 1 editor_world))
    = editor_world.
Proof.
  cbv zeta. split; [done|].
  destruct (updatePolicyDocument_frame (only_fails DbUpdate "acme") "acme" viewer_document
              1 editor_world _ _ _
              (run_eta (updatePolicyDocument (only_fails DbUpdate "acme") "acme"
                          viewer_document 1 editor_world)))
    as (_ & _ & _ & _ & Hstay).
  apply Hstay. right. right. reflexivity.
Defined.

(** X17. [updatePolicyDocument] is not all or nothing.  When the store
    write goes through and the cache deletion fails, the call throws with
    the new configuration stored, the cache as it was, the old document
    still in it if it was, and no audit record; when the cache deletion goes
    through and the audit write fails, the call throws with the new
    configuration stored and the cached document gone, unaudited. *)
Theorem updatePolicyDocument_partial_failure fault tenant policy actor w row :
  tenants w !! tenant = Some row →
  fault DbFind tenant = false →
  fault DbUpdate tenant = false →
  let stored := {| configuration := Some (updated_configuration row policy) |} in
  let key := POLICY_CACHE_PREFIX +:+ tenant in
  (fault RedisDel key = true →
     ∃ w', updatePolicyDocument fault tenant policy actor w =
             (Throw (IOFailure RedisDel), w',
              [EvDbFind tenant; EvDbUpdate tenant (updated_configuration row policy)]) ∧
           tenants w' !! tenant = Some stored ∧
           redis w' = redis w ∧
           auditTrail w' = auditTrail w) ∧
  (fault RedisDel key = false → fault AuditLog "owner.policy.update" = true →
     ∃ w', updatePolicyDocument fault tenant policy actor w =
             (Throw (IOFailure AuditLog), w',
              [EvDbFind tenant; EvDbUpdate tenant (updated_configuration row policy);
               EvRedisDel key]) ∧
           tenants w' !! tenant = Some stored ∧
           redis w' !! key = None ∧
           auditTrail w' = auditTrail w).
Proof.
  intros Hrow Hfind Hupdate. cbv zeta.
  rewrite updatePolicyDocument_run. cbv zeta. rewrite Hfind, Hrow, Hupdate.
  split.
  - intros ->. eexists. split; [reflexivity|].
    cbn [redis tenants auditTrail with_tenants]. by rewrite lookup_insert_eq.
  - intros -> ->. eexists. split; [reflexivity|].
    cbn [redis tenants auditTrail with_redis with_tenants].
    by rewrite lookup_insert_eq, lookup_delete_eq.
Qed.

Lemma updatePolicyDocument_partial_failure_witness :
  let fault := only_fails RedisDel (POLICY_CACHE_PREFIX +:+ "acme") in
  let update := updatePolicyDocument fault "acme" viewer_document 1 editor_world in
  (tenants editor_world !! "acme" = Some (tenant_with editor_document) ∧
   fault RedisDel (POLICY_CACHE_PREFIX +:+ "acme") = true) ∧
  fst (fst update) = Throw (IOFailure RedisDel) ∧
  tenants (snd (fst update)) !! "acme" =
    Some {| configuration :=
              Some (updated_configuration (tenant_with editor_document) viewer_document) |} ∧
  auditTrail (snd (fst update)) = auditTrail editor_world.
Proof.
  cbv zeta.
  assert (Hrow : tenants editor_world !! "acme" = Some (tenant_with editor_document))
    by run_eq.
  split; [done|].
  destruct (updatePolicyDocument_partial_failure
              (only_fails RedisDel (POLICY_CACHE_PREFIX +:+ "acme")) "acme"
              viewer_document 1 editor_world (tenant_with editor_document)
              Hrow eq_refl eq_refl) as (Hdel & _).
  destruct (Hdel eq_refl) as (w' & -> & Hstored & _ & Htrail). done.
Defined.

(** X18. After [invalidatePolicyCache] the next [getPolicyDocument] of the
    tenant reads the store, whatever document the cache held: it returns
    the stored document when the row passes the version check and
    [DEFAULT_POLICY] otherwise.  Invalidating twice is invalidating once,
    and no other key is touched. *)
Theorem invalidatePolicyCache_then_get fault fault' tenant w :
  let key := POLICY_CACHE_PREFIX +:+ tenant in
  fault RedisDel key = false →
  fault' RedisGet key = false →
  fault' DbFind tenant = false →
  fault' RedisSet key = false →
  ∃ w',
    invalidatePolicyCache fault tenant w = (Ok tt, w', [EvRedisDel key]) ∧
    (∀ k, k ≠ key → redis w' !! k = redis w !! k) ∧
    invalidatePolicyCache fault tenant w' = (Ok tt, w', [EvRedisDel key]) ∧
    fst (fst (getPolicyDocument fault' tenant w')) =
      Ok (default DEFAULT_POLICY (loadable (tenants w !! tenant))) ∧
    In (EvDbFind tenant) (snd (getPolicyDocument fault' tenant w')).
Proof.
  cbv zeta. intros Hdel Hget Hfind Hset.
  unfold invalidatePolicyCache, redis_del, io. rewrite Hdel.
  eexists. split; [reflexivity|]. split_and!.
  - intros k Hk. cbn [redis with_redis]. by rewrite lookup_delete_ne.
  - unfold with_redis at 1. cbn [redis tenants auditTrail clock with_redis].
    by rewrite delete_delete_eq.
  - rewrite getPolicyDocument_run. cbv zeta. rewrite Hget, Hfind.
    cbn [redis tenants with_redis]. rewrite lookup_delete_eq.
    destruct (loadable _); [|done]. by rewrite Hset.
  - rewrite getPolicyDocument_run. cbv zeta. rewrite Hget, Hfind.
    cbn [redis tenants with_redis]. rewrite lookup_delete_eq.
    destruct (loadable _); [|right; by left]. rewrite Hset. right. by left.
Qed.

Lemma invalidatePolicyCache_then_get_witness :
  let w := snd (fst (getPolicyDocument no_fault "acme" editor_world)) in
  let cleared := snd (fst (invalidatePolicyCache no_fault "acme" w)) in
  redis w !! (POLICY_CACHE_PREFIX +:+ "acme") = Some (DocEntry editor_document) ∧
  fst (fst (getPolicyDocument no_fault "acme" cleared)) = Ok editor_document ∧
  In (EvDbFind "acme") (snd (getPolicyDocument no_fault "acme" cleared)).
Proof.
  cbv zeta. split; [run_eq|].
  destruct (invalidatePolicyCache_then_get no_fault no_fault "acme"
              (snd (fst (getPolicyDocument no_fault "acme" editor_world)))
              eq_refl eq_refl eq_refl eq_refl)
    as (w' & Hrun & _ & _ & Hdoc & Hfind).
  rewrite Hrun. cbn [fst snd]. split; [|done].
  rewrite Hdoc. run_eq.
Defined.

(** ** What a call of [evaluate] leaves behind *)

Lemma getPolicyDocument_cache_grows fault tenant w o w1 t1 :
  getPolicyDocument fault tenant w = (o, w1, t1) →
  (∀ k v, redis w !! k = Some v → redis w1 !! k = Some v) ∧
  (∀ k, k ≠ POLICY_CACHE_PREFIX +:+ tenant → redis w1 !! k = redis w !! k) ∧
  (∀ k v ttl, In (EvRedisSet k v ttl) t1 →
     k = POLICY_CACHE_PREFIX +:+ tenant ∧ ttl = CACHE_TTL ∧
     ∃ d, v = DocEntry d ∧ version d = 1%Z).
Proof.
  rewrite getPolicyDocument_run. cbv zeta. intros Hrun.
  assert (Hquiet : ∀ es : list Event,
            (∀ e, In e es → match e with EvRedisSet _ _ _ => False | _ => True end) →
            ∀ k v ttl, In (EvRedisSet k v ttl) es →
              k = POLICY_CACHE_PREFIX +:+ tenant ∧ ttl = CACHE_TTL ∧
              ∃ d, v = DocEntry d ∧ version d = 1%Z).
  { intros es Hes k v ttl Hin. by apply Hes in Hin. }
  destruct (fault RedisGet _).
  { injection Hrun as <- <- <-. split_and!; done. }
  destruct (redis w !! (POLICY_CACHE_PREFIX +:+ tenant)) as [[cachedDoc|r]|] eqn:Hkey.
  1, 2: injection Hrun as <- <- <-; split_and!; try done;
        try (apply Hquiet; intros e [<- | []]; done).
  destruct (fault DbFind _).
  { injection Hrun as <- <- <-. split_and!; try done.
    try (apply Hquiet; intros e [<- | []]; done). }
  destruct (loadable (tenants w !! tenant)) as [policyDoc|] eqn:Hload.
  2: { injection Hrun as <- <- <-. split_and!; try done.
       try (apply Hquiet; intros e [<- | [<- | []]]; done). }
  destruct (fault RedisSet _).
  { injection Hrun as <- <- <-. split_and!; try done.
    try (apply Hquiet; intros e [<- | [<- | []]]; done). }
  injection Hrun as <- <- <-. cbn [redis with_redis]. split_and!.
  - intros k v Hk. rewrite lookup_insert_ne; [done|]. intros <-. congruence.
  - intros k Hk. by rewrite lookup_insert_ne.
  - intros k v ttl [? | [? | [[= <- <- <-] | []]]]; try done.
    split_and!; try done. exists policyDoc. split; [done|].
    unfold loadable in Hload. repeat case_match; simplify_eq.
    by apply Z.eqb_eq.
Qed.

Lemma respond_leaves fault subject action resource context key result w1 o w2 t2 :
  respond fault subject action resource context key result w1 = (o, w2, t2) →
  auditTrail w2 = auditTrail w1 ++ audit_writes t2 ∧
  (length (audit_writes t2) ≤ 1)%nat ∧
  (redis w2 = redis w1 ∨ redis w2 = <[key := EvalEntry result]> (redis w1)) ∧
  (∀ k v ttl, In (EvRedisSet k v ttl) t2 → k = key ∧ ttl = 60%Z ∧ v = EvalEntry result).
Proof.
  rewrite respond_run. cbv zeta. intros Hrun.
  repeat case_match; injection Hrun as <- <- <-;
    cbn [redis auditTrail with_audit with_redis audit_writes flat_map app length];
    rewrite ?app_nil_r; (split_and!; [done | lia | auto |]);
    intros k v ttl Hin; simpl in Hin; destruct_or?; simplify_eq; done.
Qed.

(** X19. A call of [evaluate], however it ends, leaves the tenant table
    and the clock as they were, appends to the audit trail the records its
    trace shows, at most one, and never removes or overwrites a cache
    entry: every entry that was there is still there with the same value,
    and only the call's own evaluation key and its tenant's document key
    can have changed. *)
Theorem evaluate_frame fault subject action resource context w o w' tr :
  evaluate fault subject action resource context w = (o, w', tr) →
  tenants w' = tenants w ∧
  clock w' = clock w ∧
  auditTrail w' = auditTrail w ++ audit_writes tr ∧
  (length (audit_writes tr) ≤ 1)%nat ∧
  (∀ k v, redis w !! k = Some v → redis w' !! k = Some v) ∧
  (∀ k, k ≠ getEvalCacheKey (normalize subject) action resource context →
        k ≠ POLICY_CACHE_PREFIX +:+ tenantId context →
        redis w' !! k = redis w !! k).
Proof.
  intros Hrun. apply evaluate_inv in Hrun.
  destruct Hrun as [Hget | cached Hget Hkey | err w1 t1 Hget Hkey Hdoc
                   | policyDoc w1 t1 Hget Hkey Hdoc Hthrows
                   | policyDoc w1 t1 o w2 t2 Hget Hkey Hdoc Hthrows Hresp].
  - rewrite app_nil_r. split_and!; simpl; (done || lia).
  - rewrite app_nil_r. split_and!; simpl; (done || lia).
  - pose proof (getPolicyDocument_quiet _ _ _ _ _ _ Hdoc) as (_ & Ha & Htrail & Ht & Hc).
    pose proof (getPolicyDocument_cache_grows _ _ _ _ _ _ Hdoc) as (Hkeep & Hother & _).
    change (audit_writes (EvRedisGet ?k :: ?t)) with (audit_writes t).
    rewrite Ha, app_nil_r. split_and!; simpl; auto; lia.
  - pose proof (getPolicyDocument_quiet _ _ _ _ _ _ Hdoc) as (_ & Ha & Htrail & Ht & Hc).
    pose proof (getPolicyDocument_cache_grows _ _ _ _ _ _ Hdoc) as (Hkeep & Hother & _).
    change (audit_writes (EvRedisGet ?k :: ?t)) with (audit_writes t).
    rewrite Ha, app_nil_r. split_and!; simpl; auto; lia.
  - pose proof (getPolicyDocument_quiet _ _ _ _ _ _ Hdoc) as (_ & Ha & Htrail & Ht & Hc).
    pose proof (getPolicyDocument_cache_grows _ _ _ _ _ _ Hdoc) as (Hkeep & Hother & _).
    pose proof (respond_quiet _ _ _ _ _ _ _ _ _ _ _ Hresp) as (_ & Ht2 & Hc2).
    pose proof (respond_leaves _ _ _ _ _ _ _ _ _ _ _ Hresp) as (Htrail2 & Hlen & Hredis & _).
    change (audit_writes (EvRedisGet ?k :: ?t)) with (audit_writes t).
    rewrite !audit_writes_app, Ha, audit_writes_consulted. simpl.
    split_and!; try congruence.
    + intros k v Hk. apply Hkeep in Hk as Hk1.
      destruct Hredis as [-> | ->]; [done|].
      rewrite lookup_insert_ne; [done|]. intros <-. congruence.
    + intros k Hk Hk'. rewrite <- (Hother k Hk').
      destruct Hredis as [-> | ->]; [done|]. by rewrite lookup_insert_ne.
Qed.

Lemma evaluate_frame_witness :
  redis after_user1 !! (POLICY_CACHE_PREFIX +:+ "acme") = Some (DocEntry editor_document) ∧
  redis (snd (fst user2_run)) !! (POLICY_CACHE_PREFIX +:+ "acme")
    = Some (DocEntry editor_document).
Proof.
  assert (Hdoc : redis after_user1 !! (POLICY_CACHE_PREFIX +:+ "acme")
                 = Some (DocEntry editor_document)) by run_eq.
  split; [done|].
  destruct (evaluate_frame no_fault (RoleName "EDITOR") "read" "Article"
              (request_context None (Some 2)) after_user1 _ _ _ (run_eta user2_run))
    as (_ & _ & _ & _ & Hkeep & _).
  exact (Hkeep _ _ Hdoc).
Defined.

(** X20. Every cache write of a call of [evaluate] is one of two: the
    decision, a result with exactly one flag set, under the call's
    evaluation key for 60 seconds, or a version-1 document under the
    tenant's document key for 300 seconds. *)
Theorem evaluate_cache_writes fault subject action resource context w o w' tr k v ttl :
  evaluate fault subject action resource context w = (o, w', tr) →
  In (EvRedisSet k v ttl) tr →
  (k = getEvalCacheKey (normalize subject) action resource context ∧ ttl = 60%Z ∧
   ∃ r, v = EvalEntry r ∧ terminal r) ∨
  (k = POLICY_CACHE_PREFIX +:+ tenantId context ∧ ttl = 300%Z ∧
   ∃ d, v = DocEntry d ∧ version d = 1%Z).
Proof.
  intros Hrun Hin. apply evaluate_inv in Hrun.
  destruct Hrun as [Hget | cached Hget Hkey | err w1 t1 Hget Hkey Hdoc
                   | policyDoc w1 t1 Hget Hkey Hdoc Hthrows
                   | policyDoc w1 t1 o w2 t2 Hget Hkey Hdoc Hthrows Hresp].
  - done.
  - by destruct Hin as [? | []].
  - destruct Hin as [? | Hin]; [done|].
    right. by eapply getPolicyDocument_cache_grows.
  - destruct Hin as [? | Hin]; [done|].
    right. by eapply getPolicyDocument_cache_grows.
  - destruct Hin as [? | Hin]; [done|].
    apply in_app_or in Hin as [Hin | Hin].
    { right. by eapply getPolicyDocument_cache_grows. }
    apply in_app_or in Hin as [Hin | Hin].
    { unfold consulted in Hin. repeat case_match; simpl in Hin; destruct_or?; done. }
    left. apply (respond_leaves _ _ _ _ _ _ _ _ _ _ _ Hresp) in Hin as (-> & -> & ->).
    split_and!; try done. eexists. split; [done|]. apply verdict_terminal.
Qed.

Lemma evaluate_cache_writes_witness :
  In (EvRedisSet (POLICY_CACHE_PREFIX +:+ "acme") (DocEntry editor_document) 300)
     (snd user1_run) ∧
  ((POLICY_CACHE_PREFIX +:+ "acme" =
      getEvalCacheKey (normalize (RoleName "EDITOR")) "read" "Article"
        (request_context None (Some 1)) ∧ 300%Z = 60%Z ∧
    ∃ r, DocEntry editor_document = EvalEntry r ∧ terminal r) ∨
   (POLICY_CACHE_PREFIX +:+ "acme" =
      POLICY_CACHE_PREFIX +:+ tenantId (request_context None (Some 1)) ∧
    300%Z = 300%Z ∧
    ∃ d, DocEntry editor_document = DocEntry d ∧ version d = 1%Z)).
Proof.
  assert (Hin : In (EvRedisSet (POLICY_CACHE_PREFIX +:+ "acme")
                      (DocEntry editor_document) 300) (snd user1_run)) by in_trace.
  split; [done|].
  exact (evaluate_cache_writes no_fault (RoleName "EDITOR") "read" "Article"
           (request_context None (Some 1)) editor_world _ _ _ _ _ _
           (run_eta user1_run) Hin).
Defined.

(** ** Allowing and denying *)

Lemma evaluateRBAC_allowed_inv subject action resource context policyDoc :
  allowed (evaluateRBAC subject action resource context policyDoc) = true →
  s_type subject = "role" ∧
  ∃ rp p,
    roles policyDoc !! s_id subject = Some rp ∧
    find (λ q, p_resource q =? resource) (permissions rp) = Some p ∧
    includes_str (p_actions p) action = true ∧
    p_effect p = ALLOW ∧
    (p_scope p = "all" ∨
     (p_scope p = "own" ∨ p_scope p = "workspace") ∧ workspace_present context).
Proof.
  unfold evaluateRBAC.
  destruct (s_type subject =? "role") eqn:Hty; simpl; [|done].
  apply String.eqb_eq in Hty.
  destruct (roles policyDoc !! s_id subject) as [rp|] eqn:Hrole; [|done].
  destruct (find _ _) as [p|] eqn:Hfind; [|done].
  destruct (includes_str (p_actions p) action) eqn:Hact; simpl; [|done].
  destruct (p_effect p) eqn:Heff; [|done].
  destruct (p_scope p =? "own") eqn:Hown.
  { apply String.eqb_eq in Hown.
    destruct (truthy (workspaceId context)) eqn:Hws; [|done].
    apply truthy_workspace_present in Hws. intros _.
    split; [done|]. exists rp, p. split_and!; try done.
    right. split; [by left | done]. }
  destruct (p_scope p =? "workspace") eqn:Hwsp.
  { apply String.eqb_eq in Hwsp.
    destruct (truthy (workspaceId context)) eqn:Hws; [|done].
    apply truthy_workspace_present in Hws. intros _.
    split; [done|]. exists rp, p. split_and!; try done.
    right. split; [by right | done]. }
  destruct (p_scope p =? "all") eqn:Hall; [|done].
  apply String.eqb_eq in Hall. intros _.
  split; [done|]. exists rp, p. split_and!; try done. by left.
Qed.

(** X21. [evaluate] computes an allow only from an explicit allow.  When a
    call that misses the evaluation cache returns an allowed result, the
    document it loaded either gives the role a permission for the resource
    that lists the action with effect allow and a scope that is met (['all'],
    or ['own'] or ['workspace'] with a workspace in the context), or, the
    RBAC evaluator abstaining, holds a matching rule with effect allow and
    no matching rule with effect deny. *)
Theorem evaluate_allows_on_explicit_allow_only fault subject action resource context
    w result w' tr :
  evaluate fault subject action resource context w = (Ok result, w', tr) →
  redis w !! getEvalCacheKey (normalize subject) action resource context = None →
  allowed result = true →
  let ns := normalize subject in
  ∃ policyDoc w1 t1,
    getPolicyDocument fault (tenantId context) w = (Ok policyDoc, w1, t1) ∧
    ((s_type ns = "role" ∧
      ∃ rp p,
        roles policyDoc !! s_id ns = Some rp ∧
        find (λ q, p_resource q =? resource) (permissions rp) = Some p ∧
        includes_str (p_actions p) action = true ∧
        p_effect p = ALLOW ∧
        (p_scope p = "all" ∨
         (p_scope p = "own" ∨ p_scope p = "workspace") ∧ workspace_present context)) ∨
     (no_opinion (evaluateRBAC ns action resource context policyDoc) ∧
      (∃ rule, matches_in (clock w) ns action resource context policyDoc rule ∧
               r_effect rule = ALLOW) ∧
      ¬ (∃ rule, matches_in (clock w) ns action resource context policyDoc rule ∧
                 r_effect rule = DENY))).
Proof.
  intros Hrun Hmiss Hallowed. cbv zeta. apply evaluate_inv in Hrun.
  inversion Hrun as [| cached Hget Hkey | | |
                     policyDoc w1 t1 o w2 t2 Hget Hkey Hdoc Hthrows Hresp];
    subst; [congruence|].
  exists policyDoc, w1, t1. split; [done|].
  pose proof (getPolicyDocument_quiet _ _ _ _ _ _ Hdoc) as (_ & _ & _ & _ & Hclock).
  apply respond_returns in Hresp as (-> & _).
  rewrite Hclock in Hallowed.
  unfold verdict in Hallowed.
  destruct (denied (evaluateRBAC _ _ _ _ _)) eqn:Hrd; [done|].
  destruct (allowed (evaluateRBAC _ _ _ _ _)) eqn:Hra.
  { left. by apply evaluateRBAC_allowed_inv. }
  right. split; [done|].
  destruct (denied (evaluateABAC _ _ _ _ _ _)) eqn:Had; [done|].
  destruct (allowed (evaluateABAC _ _ _ _ _ _)) eqn:Haa; [|done].
  by apply evaluateABAC_allowed_iff.
Qed.

Lemma evaluate_allows_on_explicit_allow_only_witness :
  (user1_run = (Ok (verdict_of editor_rule), after_user1, snd user1_run) ∧
   redis editor_world !! getEvalCacheKey (normalize (RoleName "EDITOR")) "read" "Article"
                           (request_context None (Some 1)) = None ∧
   allowed (verdict_of editor_rule) = true) ∧
  ∃ policyDoc w1 t1,
    getPolicyDocument no_fault "acme" editor_world = (Ok policyDoc, w1, t1).
Proof.
  assert (Hrun : user1_run = (Ok (verdict_of editor_rule), after_user1, snd user1_run))
    by run_eq.
  assert (Hmiss : redis editor_world !!
                    getEvalCacheKey (normalize (RoleName "EDITOR")) "read" "Article"
                      (request_context None (Some 1)) = None) by run_eq.
  split; [done|].
  destruct (evaluate_allows_on_explicit_allow_only no_fault (RoleName "EDITOR") "read"
              "Article" (request_context None (Some 1)) editor_world _ _ _
              Hrun Hmiss eq_refl) as (policyDoc & w1 & t1 & Hdoc & _).
  eauto.
Defined.

(** X22. When the deny audit fails, the denial is lost to the audit trail
    but not to the cache: a call that throws the audit failure has already
    cached a denial and written no audit record, and the next call for the
    request returns that denial from the cache, again without auditing it. *)
Theorem evaluate_audit_failure_leaves_cached_denial fault subject action resource context
    w w' tr :
  evaluate fault subject action resource context w = (Throw (IOFailure AuditLog), w', tr) →
  let key := getEvalCacheKey (normalize subject) action resource context in
  ∃ denial,
    denied denial = true ∧ allowed denial = false ∧
    redis w' !! key = Some (EvalEntry denial) ∧
    auditTrail w' = auditTrail w ∧
    ∀ fault', fault' RedisGet key = false →
      evaluate fault' subject action resource context w' =
        (Ok denial, w', [EvRedisGet key]).
Proof.
  intros Hrun. cbv zeta. apply evaluate_inv in Hrun.
  inversion Hrun as [| | err w1 t1 Hget Hkey Hdoc |
                     | policyDoc w1 t1 o w2 t2 Hget Hkey Hdoc Hthrows Hresp]; subst.
  - rewrite getPolicyDocument_run in Hdoc. cbv zeta in Hdoc.
    repeat case_match; simplify_eq.
  - pose proof (getPolicyDocument_quiet _ _ _ _ _ _ Hdoc) as (_ & _ & Htrail & _).
    pose proof (verdict_terminal
                  (evaluateRBAC (normalize subject) action resource context policyDoc)
                  (evaluateABAC (clock w1) (normalize subject) action resource
                     context policyDoc)) as Hterm.
    rewrite respond_run in Hresp. cbv zeta in Hresp.
    destruct (fault RedisSet _); [done|].
    destruct (denied (verdict _ _)) eqn:Hdenied; [|done].
    destruct (fault AuditLog _); [|done].
    injection Hresp as <- _.
    eexists. split_and!.
    + exact Hdenied.
    + unfold terminal in Hterm. rewrite Hdenied in Hterm. by destruct (allowed _).
    + cbn [redis with_redis]. by rewrite lookup_insert_eq.
    + done.
    + intros fault' Hget'. rewrite evaluate_run. cbv zeta. rewrite Hget'.
      cbn [redis with_redis]. by rewrite lookup_insert_eq.
Qed.

Lemma evaluate_audit_failure_leaves_cached_denial_witness :
  let failing := evaluate (only_fails AuditLog "policy.deny") (RoleName "EDITOR") "read"
                   "Article" (request_context None (Some 2)) bare_world in
  fst (fst failing) = Throw (IOFailure AuditLog) ∧
  evaluate no_fault (RoleName "EDITOR") "read" "Article" (request_context None (Some 2))
    (snd (fst failing)) =
    (Ok default_denial, snd (fst failing), [EvRedisGet editor_key]) ∧
  auditTrail (snd (fst failing)) = [].
Proof.
  cbv zeta.
  assert (Hrun : evaluate (only_fails AuditLog "policy.deny") (RoleName "EDITOR") "read"
                   "Article" (request_context None (Some 2)) bare_world =
                 (Throw (IOFailure AuditLog),
                  snd (fst (evaluate (only_fails AuditLog "policy.deny")
                              (RoleName "EDITOR") "read" "Article"
                              (request_context None (Some 2)) bare_world)),
                  snd (evaluate (only_fails AuditLog "policy.deny")
                         (RoleName "EDITOR") "read" "Article"
                         (request_context None (Some 2)) bare_world))) by run_eq.
  split; [run_eq|].
  destruct (evaluate_audit_failure_leaves_cached_denial _ _ _ _ _ _ _ _ Hrun)
    as (denial & _ & _ & Hcached & Htrail & Hnext).
  split; [|by rewrite Htrail].
  rewrite (Hnext no_fault eq_refl). f_equal. f_equal. f_equal.
  assert (Hthere : redis (snd (fst (evaluate (only_fails AuditLog "policy.deny")
                                      (RoleName "EDITOR") "read" "Article"
                                      (request_context None (Some 2)) bare_world)))
                   !! getEvalCacheKey (normalize (RoleName "EDITOR")) "read" "Article"
                        (request_context None (Some 2))
                   = Some (EvalEntry default_denial)) by run_eq.
  rewrite Hthere in Hcached. by injection Hcached.
Defined.

(** X24. A role the loaded document does not list and whose id names a
    member the role map inherits (['constructor'], ['toString'], ...) gets
    no decision: on a miss of the evaluation cache, [evaluate] loads the
    document and then throws the TypeError of the role lookup, running no
    ABAC rule, caching no decision and writing no audit record. *)
Theorem evaluate_role_lookup_throws fault subject action resource context w
    policyDoc w1 t1 :
  fault RedisGet (getEvalCacheKey (normalize subject) action resource context) = false →
  redis w !! getEvalCacheKey (normalize subject) action resource context = None →
  getPolicyDocument fault (tenantId context) w = (Ok policyDoc, w1, t1) →
  s_type (normalize subject) = "role" →
  roles policyDoc !! s_id (normalize subject) = None →
  inherited_member (s_id (normalize subject)) = true →
  evaluate fault subject action resource context w =
    (Throw (Error "TypeError"), w1,
     EvRedisGet (getEvalCacheKey (normalize subject) action resource context) :: t1) ∧
  evaluations t1 = [] ∧
  audit_writes t1 = [] ∧
  auditTrail w1 = auditTrail w ∧
  redis w1 !! getEvalCacheKey (normalize subject) action resource context = None.
Proof.
  intros Hget Hmiss Hdoc Hrole Hnone Hinh.
  pose proof (getPolicyDocument_quiet _ _ _ _ _ _ Hdoc) as (Hev & Ha & Htrail & _).
  pose proof (getPolicyDocument_cache_grows _ _ _ _ _ _ Hdoc) as (_ & Hother & _).
  split_and!; try done.
  - rewrite evaluate_run. cbv zeta. rewrite Hget, Hmiss, Hdoc.
    unfold evaluateRBAC_throws. by rewrite Hrole, Hnone, Hinh.
  - rewrite Hother; [done|]. apply eval_key_is_no_doc_key.
Qed.

Lemma evaluate_role_lookup_throws_witness :
  evaluate no_fault (RoleName "constructor") "read" "Article"
    (request_context None (Some 2)) bare_world =
    (Throw (Error "TypeError"), bare_world,
     [EvRedisGet "policy:eval:acme:role:constructor:read:Article:global";
      EvRedisGet "policy:doc:acme"; EvDbFind "acme"]).
Proof.
  assert (Hdoc : getPolicyDocument no_fault "acme" bare_world =
                   (Ok DEFAULT_POLICY, bare_world,
                    [EvRedisGet "policy:doc:acme"; EvDbFind "acme"])) by run_eq.
  exact (proj1 (evaluate_role_lookup_throws no_fault (RoleName "constructor") "read"
                  "Article" (request_context None (Some 2)) bare_world
                  DEFAULT_POLICY bare_world _ eq_refl eq_refl Hdoc eq_refl eq_refl eq_refl)).
Defined.
